(** * UrbanFlow: the hyperparameter optimisation orchestrator

    A shallow embedding of [src/modules/hyperparams/optimisers.py]:
    [create_study], [optimize_model], [optimize_hyperparameters] and
    [optimize_hyperparameters_base].

    Python's effects are made explicit.  A computation is a function from a
    [world] (the Parameter Store, the Optuna studies that are alive, and the
    trace of what has been done so far) to a [result] and the world
    afterwards; an exception keeps the effects that happened before it. *)

From stdpp Require Import base option list strings gmap.
From Stdlib Require Import ZArith QArith.

Local Open Scope Z_scope.

(** ** Python values *)

(** The value of one hyperparameter ("numeric or categorical"). A Python
    float is kept as the rational it denotes; no property below computes
    with it. *)
Inductive param_value :=
  | PInt (z : Z)
  | PFloat (q : Q)
  | PStr (s : string)
  | PBool (b : bool).

(** The objects that flow through the orchestrator: [None], a [dict] of
    hyperparameters, and objects that are neither (what a damaged store may
    hand back). *)
Inductive pyval :=
  | PyNone
  | PyDict (d : gmap string param_value)
  | PyStr (s : string)
  | PyInt (z : Z).

(** [x is None] *)
Definition is_none (v : pyval) : bool :=
  match v with PyNone => true | _ => false end.

(** [isinstance(x, dict)] *)
Definition is_dict (v : pyval) : bool :=
  match v with PyDict _ => true | _ => false end.

(** ** Exceptions *)

Inductive exn :=
  | TimeoutError
  | KeyboardInterrupt
  | KeyError (key : string)
  | ValueError (msg : string)
  | OtherException (msg : string).

(** [isinstance(e, TimeoutError)] *)
Definition is_TimeoutError (e : exn) : bool :=
  match e with TimeoutError => true | _ => false end.

(** [isinstance(e, Exception)]: [KeyboardInterrupt] derives from
    [BaseException] only. *)
Definition is_Exception (e : exn) : bool :=
  match e with KeyboardInterrupt => false | _ => true end.

(** [isinstance(e, KeyboardInterrupt)] *)
Definition is_KeyboardInterrupt (e : exn) : bool :=
  match e with KeyboardInterrupt => true | _ => false end.

(** [str(e)]; for a [KeyError] Python gives the [repr] of the key, which
    for a key of plain characters is the key between single quotes. *)
Definition exn_str (e : exn) : string :=
  match e with
  | TimeoutError => ""
  | KeyboardInterrupt => ""
  | KeyError k => "'" +:+ k +:+ "'"
  | ValueError m => m
  | OtherException m => m
  end.

Inductive result (A : Type) :=
  | Ok (a : A)
  | Raise (e : exn).
Arguments Ok {A} a.
Arguments Raise {A} e.

(** ** Optuna, seen from outside *)

(** A completed trial of a study ([optuna.trial.FrozenTrial]). *)
Record trial := Trial {
  number : nat;
  value : Q;
  params : gmap string param_value
}.

(** How a search guarded by [run_with_timeout] ends in a worker thread, in
    the three ways the orchestrator is written for: it returns in time, the
    guard raises [TimeoutError], or the search raises some other
    [Exception] whose text is [msg]. *)
Inductive task_outcome :=
  | Success
  | Timeout
  | Failure (msg : string).

(** The same, with nothing assumed of what the search raises: [e] may be
    any exception, one that does not derive from [Exception] included. *)
Inductive guarded_outcome :=
  | Returns
  | Expires
  | Raises (e : exn).

(** How a bare [study.optimize] ends on the main thread. *)
Inductive search_outcome :=
  | Finished
  | Interrupted
  | Crashed (msg : string).

(** An objective is an opaque callable closed over the training data. What
    the orchestrator can observe of it is how a search driven by it ends
    and which completed trial is the best one at that moment (none when no
    trial has completed). *)
Record objective_t (O : Type) := Objective {
  outcome : O;
  best_found : option trial
}.
Arguments Objective {O} _ _.
Arguments outcome {O} _.
Arguments best_found {O} _.

(** A study handle: the index of the study among the studies created. *)
Definition study := nat.

(** ** Logging and the trace *)

Inductive level := INFO | WARNING | ERROR.

(** One constructor per message the module formats. *)
Inductive message :=
  | MsgTimedOut (name : string)
      (* f"Optimization for {name} timed out" *)
  | MsgException (name exc : string)
      (* f'{name} generated an exception: {exc}' *)
  | MsgNoParameters (name : string)
      (* f"No parameters found for {name}. Using default parameters." *)
  | MsgStarting
      (* "Starting hyperparameter optimization" *)
  | MsgInterrupted
      (* "Optimization interrupted by user." *)
  | MsgBestTrial (n : nat)
      (* f"Best trial: {study.best_trial.number}" *)
  | MsgBestValue (v : Q)
      (* f"Best value: {study.best_value}" *)
  | MsgBestParams (p : gmap string param_value).
      (* f"Best hyperparameters: {study.best_params}" *)

(** What a run leaves behind, oldest first: log records, studies created,
    searches started (each search calls the objective of the model named)
    and writes to the Parameter Store. *)
Inductive event :=
  | EvLog (l : level) (m : message)
  | EvCreateStudy (name : string)
  | EvSearch (name : string)
  | EvSave (name : string) (p : pyval).

(** ** The Parameter Store *)

(** Modelled from the spec: the Parameter Store, that is
    [load_hyperparameters] and [save_hyperparameters] of
    [modules/hyperparams/save_and_load.py], which is not among the sources.
    The spec gives the interface
    [load_hyperparameters(model_id) -> Mapping|None] and
    [save_hyperparameters(params: Mapping, model_id) -> None] over "keyed
    records, key = model identifier". [load] is typed with [pyval] so that a
    damaged store can be expressed. *)
Class ParamStore (St : Type) := {
  load : string → St → pyval;
  save : pyval → string → St → St
}.

(** Modelled from the spec: what "keyed records" promises of any store. A
    saved mapping is what a later load of the same key returns, and a save
    leaves the other keys alone. *)
Class ParamStoreLaws (St : Type) `{ParamStore St} : Prop := {
  load_save_eq (d : gmap string param_value) (n : string) (s : St) :
    load n (save (PyDict d) n s) = PyDict d;
  load_save_ne (p : pyval) (n m : string) (s : St) :
    n ≠ m → load m (save p n s) = load m s
}.

(** Modelled from the spec: the store as a finite map of keyed records; a
    key without a record loads as [None]. *)
#[export] Instance gmap_store : ParamStore (gmap string pyval) := {|
  load n s := default PyNone (s !! n);
  save p n s := <[n := p]> s
|}.

(** How an outcome shows inside [study.optimize]: the exception it raises,
    if any. A timeout is raised by the guard, not by the search. *)
Class SearchOutcome (O : Type) := search_raises : O → option exn.

#[export] Instance task_search_outcome : SearchOutcome task_outcome :=
  λ o, match o with
       | Success => None
       | Timeout => None
       | Failure msg => Some (OtherException msg)
       end.

#[export] Instance base_search_outcome : SearchOutcome search_outcome :=
  λ o, match o with
       | Finished => None
       | Interrupted => Some KeyboardInterrupt
       | Crashed msg => Some (OtherException msg)
       end.

(** The three outcomes of a task among the guarded ones. *)
Definition as_guarded (o : task_outcome) : guarded_outcome :=
  match o with
  | Success => Returns
  | Timeout => Expires
  | Failure msg => Raises (OtherException msg)
  end.

#[export] Instance guarded_search_outcome : SearchOutcome guarded_outcome :=
  λ o, match o with
       | Returns => None
       | Expires => None
       | Raises e => Some e
       end.

(** Whether the guard's deadline passes before the search returns. *)
Class GuardOutcome (O : Type) := deadline_passes : O → bool.

#[export] Instance task_guard_outcome : GuardOutcome task_outcome :=
  λ o, match o with Timeout => true | _ => false end.

#[export] Instance guarded_guard_outcome : GuardOutcome guarded_outcome :=
  λ o, match o with Expires => true | _ => false end.

(** The model identifiers, in the order in which the tasks are submitted. *)
Definition model_names : list string :=
  ["xgb"; "rf"; "stacking"; "reg_stacking"].

Section Optimisers.
Context {St : Type} `{ParamStore St}.

(** ** The effect monad *)

Record world := World {
  store : St;
  studies : list (option trial);
  trace : list event
}.

Definition M (A : Type) : Type := world → result A * world.

Definition ret {A} (a : A) : M A := λ w, (Ok a, w).

Definition bind {A B} (m : M A) (k : A → M B) : M B :=
  λ w, match m w with
       | (Ok a, w') => k a w'
       | (Raise e, w') => (Raise e, w')
       end.

Definition raise {A} (e : exn) : M A := λ w, (Raise e, w).

(** [try: m  except BaseException as e: handler e]; a handler re-raises what
    its [except] clauses do not match. *)
Definition try_except {A} (m : M A) (handler : exn → M A) : M A :=
  λ w, match m w with
       | (Raise e, w') => handler e w'
       | r => r
       end.

Definition emit (ev : event) : M unit :=
  λ w, (Ok tt, World (store w) (studies w) (trace w ++ [ev])).

#[local] Instance M_ret : MRet M := @ret.
#[local] Instance M_bind : MBind M := λ A B k m, bind m k.

(** [for x in xs: acc = body acc x] *)
Fixpoint for_each {A B} (body : B → A → M B) (acc : B) (xs : list A)
    : M B :=
  match xs with
  | [] => mret acc
  | x :: xs => acc ← body acc x; for_each body acc xs
  end.

(** ** Collaborators *)

Definition logging (l : level) (m : message) : M unit := emit (EvLog l m).

Definition load_hyperparameters (name : string) : M pyval :=
  λ w, (Ok (load name (store w)), w).

Definition save_hyperparameters (p : pyval) (name : string) : M unit :=
  λ w, (Ok tt,
        World (save p name (store w)) (studies w)
              (trace w ++ [EvSave name p])).

(** [optuna.create_study(direction='minimize', sampler=TPESampler())]: a
    new study without trials. [name] only labels the trace. *)
Definition optuna_create_study (name : string) : M study :=
  λ w, (Ok (length (studies w)),
        World (store w) (studies w ++ [None])
              (trace w ++ [EvCreateStudy name])).

(** [study.optimize(func, n_trials=hyperparameter_rounds, timeout=timeout,
    n_jobs=-1, show_progress_bar=True)]: the search calls [func]; when it
    ends the study holds the trials completed until then. [name] only
    labels the trace. *)
Definition study_optimize {O} `{SearchOutcome O} (name : string)
    (study : study) (func : objective_t O) (timeout : Z) : M unit :=
  λ w, let w' := World (store w) (<[study := best_found func]> (studies w))
                       (trace w ++ [EvSearch name]) in
       match search_raises (outcome func) with
       | Some e => (Raise e, w')
       | None => (Ok tt, w')
       end.

(** [study.best_trial]: Optuna raises [ValueError] while no trial of the
    study has completed. *)
Definition best_trial (study : study) : M trial :=
  λ w, match studies w !! study with
       | Some (Some t) => (Ok t, w)
       | _ => (Raise (ValueError "No trials are completed yet."), w)
       end.

(** [study.best_params] is [study.best_trial.params]. *)
Definition best_params (study : study) : M (gmap string param_value) :=
  t ← best_trial study; mret (params t).

(** [study.best_value] is [study.best_trial.value]. *)
Definition best_value (study : study) : M Q :=
  t ← best_trial study; mret (value t).

(** Modelled from the spec: the Timeout Guard [run_with_timeout] of
    [modules/utilities], which is not among the sources. It "executes
    [work] and returns its result if it completes within
    [timeout_duration] seconds; otherwise it fails with a Timeout error and
    the underlying computation must be abandoned". Whether the deadline
    passes is a fact of the run, given as [late]. *)
Definition run_with_timeout {A} (work : M A) (timeout_duration : Z)
    (late : bool) : M A :=
  λ w, match work w with
       | (r, w') => if late then (Raise TimeoutError, w') else (r, w')
       end.

(** [concurrent.futures.ThreadPoolExecutor.map(f, xs)] followed by
    [list(...)]. The tasks finish in the order [order] (indices into [xs]);
    a task runs as one step, which is exact for tasks that only read the
    store. Each task's outcome is kept in its own future, and the results
    are read from the futures in the order of [xs]; reading a future whose
    task raised raises again. *)
Fixpoint run_tasks {A B} (f : A → M B) (xs : list A) (order : list nat)
    (futures : gmap nat (result B)) : M (gmap nat (result B)) :=
  match order with
  | [] => mret futures
  | i :: order =>
      match xs !! i with
      | Some x =>
          λ w, match f x w with
               | (r, w') => run_tasks f xs order (<[i := r]> futures) w'
               end
      | None => run_tasks f xs order futures
      end
  end.

Fixpoint collect {B} (futures : list (option (result B))) : M (list B) :=
  match futures with
  | [] => mret []
  | Some (Ok b) :: futures => bs ← collect futures; mret (b :: bs)
  | Some (Raise e) :: _ => raise e
  | None :: futures => collect futures
  end.

Definition executor_map {A B} (f : A → M B) (xs : list A)
    (order : list nat) : M (list B) :=
  futures ← run_tasks f xs order ∅;
  collect ((λ i, futures !! i) <$> seq 0 (length xs)).

(** [params[name]] *)
Definition getitem (params : gmap string pyval) (name : string) : M pyval :=
  match params !! name with
  | Some v => mret v
  | None => raise (KeyError name)
  end.

(** ** The module *)

(** The training data ([X_train_groups], [y_train_groups], [X_train_padded],
    [y_train_padded], [base_models], [X_train], ...) reaches nothing but
    the objectives; an [objective_t] stands for an objective already closed
    over it, so the data arguments are not repeated below. *)

(** Lines 15 to 29. *)
Definition create_study {O} (name : string) (objective : objective_t O)
    : M (option study * option (objective_t O)) :=
  saved_params ← load_hyperparameters name;
  if is_none saved_params then
    study ← optuna_create_study name;
    mret (Some study, Some objective)
  else mret (None, None).

(** Lines 32 to 68. The last clause of the handler is Python's: an exception
    that no [except] clause matches goes on to the caller. *)
Definition optimize_model {O} `{SearchOutcome O} `{GuardOutcome O}
    (name : string) (objective : objective_t O) (timeout : Z)
    : M (string * pyval) :=
  '(study, func) ← create_study name objective;
  match study, func with
  | Some study, Some func =>
      try_except
        (let optimize_with_timeout :=
           study_optimize name study func timeout in
         run_with_timeout optimize_with_timeout timeout
           (deadline_passes (outcome func));;
         best ← best_params study;
         mret (name, PyDict best))
        (λ exc,
           if is_TimeoutError exc then
             logging ERROR (MsgTimedOut name);;
             mret (name, PyNone)
           else if is_Exception exc then
             logging ERROR (MsgException name (exn_str exc));;
             mret (name, PyNone)
           else raise exc)
  | _, _ =>
      saved ← load_hyperparameters name;
      mret (name, saved)
  end.

(** Lines 99 to 108: the body of the loop that merges the task results. *)
Definition merge_result (params : gmap string pyval)
    (r : string * pyval) : M (gmap string pyval) :=
  let '(name, best_params) := r in
  params ←
    (if negb (is_none best_params) && is_dict best_params then
       let params := <[name := best_params]> params in
       save_hyperparameters best_params name;;
       mret params
     else
       loaded ← load_hyperparameters name;
       mret (<[name := loaded]> params));
  v ← getitem params name;
  if negb (is_dict v) then
    raise (ValueError ("Invalid parameters for " +:+ name +:+ "."))
  else mret params.

(** Lines 111 to 116: the body of the loop that ensures all parameters are
    loaded. *)
Definition ensure_loaded (params : gmap string pyval) (name : string)
    : M (gmap string pyval) :=
  params ←
    (if match params !! name with
        | None => true
        | Some v => is_none v
        end
     then
       loaded ← load_hyperparameters name;
       mret (<[name := loaded]> params)
     else mret params);
  v ← getitem params name;
  if is_none v then
    logging WARNING (MsgNoParameters name);;
    mret (<[name := PyDict ∅]> params)
  else mret params.

(** The four tasks: each model identifier with its objective, a closure
    over the training data. *)
Definition models_to_optimize (objective_xgb objective_rf objective_stacking
    objective_reg_stacking : objective_t task_outcome)
    : list (string * objective_t task_outcome) :=
  [("xgb", objective_xgb); ("rf", objective_rf);
   ("stacking", objective_stacking);
   ("reg_stacking", objective_reg_stacking)].

(** Lines 71 to 121. [order] is the order in which the four tasks finish in
    the pool. *)
Definition optimize_hyperparameters
    (objective_xgb objective_rf objective_stacking objective_reg_stacking
       : objective_t task_outcome)
    (timeout : Z) (order : list nat) : M (pyval * pyval * pyval * pyval) :=
  results ← executor_map (λ x, optimize_model x.1 x.2 timeout)
               (models_to_optimize objective_xgb objective_rf
                  objective_stacking objective_reg_stacking)
               order;
  params ← for_each merge_result ∅ results;
  params ← for_each ensure_loaded params model_names;
  xgb ← getitem params "xgb";
  rf ← getitem params "rf";
  stacking ← getitem params "stacking";
  reg_stacking ← getitem params "reg_stacking";
  mret (xgb, rf, stacking, reg_stacking).

(** Lines 124 to 155. *)
Definition optimize_hyperparameters_base
    (objective : objective_t search_outcome) (timeout : Z) : M pyval :=
  logging INFO MsgStarting;;
  study ← optuna_create_study "base";
  try_except
    (study_optimize "base" study objective timeout)
    (λ exc,
       if is_KeyboardInterrupt exc then logging INFO MsgInterrupted
       else raise exc);;
  best ← best_trial study;
  logging INFO (MsgBestTrial (number best));;
  best_value ← best_value study;
  logging INFO (MsgBestValue best_value);;
  best ← best_params study;
  logging INFO (MsgBestParams best);;
  best ← best_params study;
  mret (PyDict best).

(** ** What a task and the merge compute, as functions of the store *)

(** What a search that was started hands to [optimize_model]. *)
Definition search_value (objective : objective_t task_outcome) : pyval :=
  match outcome objective, best_found objective with
  | Success, Some t => PyDict (params t)
  | _, _ => PyNone
  end.

(** What a search that was started writes to the log. *)
Definition search_log (name : string) (objective : objective_t task_outcome)
    : list event :=
  match outcome objective, best_found objective with
  | Success, Some _ => []
  | Success, None =>
      [EvLog ERROR (MsgException name "No trials are completed yet.")]
  | Timeout, _ => [EvLog ERROR (MsgTimedOut name)]
  | Failure msg, _ => [EvLog ERROR (MsgException name msg)]
  end.

(** The second component of what [optimize_model] returns. *)
Definition task_value (s : St) (name : string)
    (objective : objective_t task_outcome) : pyval :=
  if is_none (load name s) then search_value objective else load name s.

(** The events of one run of [optimize_model]. *)
Definition task_events (s : St) (name : string)
    (objective : objective_t task_outcome) : list event :=
  if is_none (load name s)
  then [EvCreateStudy name; EvSearch name] ++ search_log name objective
  else [].

(** The studies one run of [optimize_model] leaves behind. *)
Definition task_studies (s : St) (name : string)
    (objective : objective_t task_outcome) : list (option trial) :=
  if is_none (load name s) then [best_found objective] else [].

(** The merged per-model value: the task's result when it is a non-null
    dict, the store's record otherwise (lines 100 to 104). *)
Definition merged_value (s : St) (name : string)
    (objective : objective_t task_outcome) : pyval :=
  let best_params := task_value s name objective in
  if negb (is_none best_params) && is_dict best_params then best_params
  else load name s.

(** The events of the pool when the tasks finish in the order [order]. *)
Definition pool_events (s : St)
    (xs : list (string * objective_t task_outcome)) (order : list nat)
    : list event :=
  mjoin ((λ i, match xs !! i with
               | Some x => task_events s x.1 x.2
               | None => []
               end) <$> order).

(** The studies the pool leaves behind. *)
Definition pool_studies (s : St)
    (xs : list (string * objective_t task_outcome)) (order : list nat)
    : list (option trial) :=
  mjoin ((λ i, match xs !! i with
               | Some x => task_studies s x.1 x.2
               | None => []
               end) <$> order).

(** The world after the tasks [order] have run, in that order. *)
Definition after_tasks (xs : list (string * objective_t task_outcome))
    (order : list nat) (w : world) : world :=
  World (store w)
    (studies w ++ pool_studies (store w) xs order)
    (trace w ++ pool_events (store w) xs order).

(** The results of the tasks [xs], in the order of [xs]. *)
Definition task_results (s : St)
    (xs : list (string * objective_t task_outcome)) : list (string * pyval) :=
  (λ x, (x.1, task_value s x.1 x.2)) <$> xs.

(** The futures after the tasks [order] have run. *)
Definition futures_after (s : St)
    (xs : list (string * objective_t task_outcome)) (order : list nat)
    (futures : gmap nat (result (string * pyval)))
    : gmap nat (result (string * pyval)) :=
  foldl (λ futures i,
           match xs !! i with
           | Some x => <[i := Ok (x.1, task_value s x.1 x.2)]> futures
           | None => futures
           end) futures order.

(** The local [params] after the results [rs] have been merged. *)
Definition merged_params (rs : list (string * pyval))
    (params : gmap string pyval) : gmap string pyval :=
  foldl (λ params r, <[r.1 := r.2]> params) params rs.

(** The store after the results [rs] have been merged. *)
Definition saved_store (rs : list (string * pyval)) (s : St) : St :=
  foldl (λ s r, if is_dict r.2 then save r.2 r.1 s else s) s rs.

(** The events of merging the results [rs]. *)
Definition saved_events (rs : list (string * pyval)) : list event :=
  mjoin ((λ r, if is_dict r.2 then [EvSave r.1 r.2] else []) <$> rs).

(** The entry of the returned tuple that belongs to a model. *)
Definition entry (name : string) (t : pyval * pyval * pyval * pyval)
    : option pyval :=
  let '(xgb, rf, stacking, reg_stacking) := t in
  if decide (name = "xgb") then Some xgb
  else if decide (name = "rf") then Some rf
  else if decide (name = "stacking") then Some stacking
  else if decide (name = "reg_stacking") then Some reg_stacking
  else None.

End Optimisers.

Arguments world St : clear implicits.
Arguments M St A : clear implicits.

(** ** Concrete inputs *)

(** A completed trial and objectives that end in each of the ways. *)
Definition a_trial : trial :=
  Trial 7 (1 # 4) {[ "max_depth" := PInt 6 ]}.

Definition another_trial : trial :=
  Trial 2 (3 # 8) {[ "n_estimators" := PInt 200 ]}.

Definition succeeding : objective_t task_outcome :=
  Objective Success (Some a_trial).

Definition succeeding_too : objective_t task_outcome :=
  Objective Success (Some another_trial).

Definition timing_out : objective_t task_outcome :=
  Objective Timeout (Some a_trial).

Definition failing : objective_t task_outcome :=
  Objective (Failure "out of memory") None.

(** An interrupt before the first trial has completed, and one after. *)
Definition interrupted_early : objective_t search_outcome :=
  Objective Interrupted None.

Definition interrupted_late : objective_t search_outcome :=
  Objective Interrupted (Some a_trial).

(** A search of the base model that ends by itself, and one that crashes. *)
Definition finishing : objective_t search_outcome :=
  Objective Finished (Some another_trial).

Definition crashing : objective_t search_outcome :=
  Objective (Crashed "loss is nan") (Some a_trial).

(** Four results that are dicts, and what merging them into an empty
    [params] on an empty store leaves. *)
Definition four_dicts : list (string * pyval) :=
  [("xgb", PyDict (params a_trial)); ("rf", PyDict (params another_trial));
   ("stacking", PyDict ∅); ("reg_stacking", PyDict ∅)].

Definition four_dicts_map : gmap string pyval :=
  <["reg_stacking" := PyDict ∅]>
    (<["stacking" := PyDict ∅]>
       (<["rf" := PyDict (params another_trial)]>
          (<["xgb" := PyDict (params a_trial)]> ∅))).

Definition four_dicts_world : world (gmap string pyval) :=
  World four_dicts_map []
        [EvSave "xgb" (PyDict (params a_trial));
         EvSave "rf" (PyDict (params another_trial));
         EvSave "stacking" (PyDict ∅); EvSave "reg_stacking" (PyDict ∅)].

(** Stores: empty, with a dict for each model, with a damaged record for
    xgb, and with a damaged record for xgb next to a dict for rf. *)
Definition empty_world : world (gmap string pyval) := World ∅ [] [].

Definition populated_world : world (gmap string pyval) :=
  World (<["xgb" := PyDict (params a_trial)]>
           (<["rf" := PyDict (params another_trial)]>
              (<["stacking" := PyDict ∅]>
                 (<["reg_stacking" := PyDict (params a_trial)]> ∅))))
        [] [].

Definition damaged_world : world (gmap string pyval) :=
  World (<["xgb" := PyStr "corrupt"]> ∅) [] [].

Definition damaged_cached_world : world (gmap string pyval) :=
  World (<["xgb" := PyStr "corrupt"]>
           (<["rf" := PyDict (params another_trial)]> ∅))
        [] [].

(** Guarded searches: one that ends in time without a completed trial, one
    that raises a [ValueError], one that is interrupted. *)
Definition ending_empty : objective_t guarded_outcome :=
  Objective Returns None.

Definition raising : objective_t guarded_outcome :=
  Objective (Raises (ValueError "empty fold")) (Some a_trial).

Definition aborted : objective_t guarded_outcome :=
  Objective (Raises KeyboardInterrupt) (Some a_trial).

(** A store with a dict for xgb and for rf and nothing else. *)
Definition half_tuned_world : world (gmap string pyval) :=
  World (<["xgb" := PyDict (params a_trial)]>
           (<["rf" := PyDict (params another_trial)]> ∅))
        [] [].

(** A store with a record of a model that is not one of the four. *)
Definition foreign_world : world (gmap string pyval) :=
  World (<["lstm" := PyDict (params a_trial)]> ∅) [] [].

(** An order of completion that is not the order of submission. *)
Definition shuffled : list nat := [2; 0; 3; 1]%nat.

(** ** The finite-map store obeys the laws *)

#[export] Instance gmap_store_laws : ParamStoreLaws (gmap string pyval).
Proof.
  split.
  - intros d n s. cbn. by rewrite lookup_insert_eq.
  - intros p n m s Hne. cbn. by rewrite lookup_insert_ne.
Qed.

(** ** Single steps *)

(** Unfolds the monad and the collaborators, so that a run computes. *)
Ltac run_monad :=
  unfold mbind, mret, M_bind, M_ret, bind, ret, raise, try_except,
    logging, emit, load_hyperparameters, save_hyperparameters,
    optuna_create_study, getitem in *;
  cbn in *.

Ltac unfold_bind := unfold mbind, mret, M_bind, M_ret, bind, ret.

Section Steps.
Context {St : Type} `{ParamStore St}.
Implicit Types (w : world St) (name : string) (v : pyval).
Implicit Types (objective : objective_t task_outcome).

Lemma dict_test v : negb (is_none v) && is_dict v = is_dict v.
Proof. by destruct v. Qed.

Lemma is_dict_inv v : is_dict v = true → ∃ d, v = PyDict d.
Proof. destruct v; naive_solver. Qed.

Lemma search_value_shape objective :
  search_value objective = PyNone ∨ is_dict (search_value objective) = true.
Proof.
  unfold search_value. destruct (outcome objective), (best_found objective);
    auto.
Qed.

(** The store fallback of the merge never changes a value: a task returns
    [None] only when the store has no record either. *)
Lemma merged_value_task_value (s : St) name objective :
  merged_value s name objective = task_value s name objective.
Proof.
  unfold merged_value. rewrite dict_test.
  destruct (is_dict (task_value s name objective)) eqn:Hd; [done|].
  unfold task_value in *. destruct (is_none (load name s)) eqn:Hn; [|done].
  destruct (search_value_shape objective) as [->|Hs]; [|congruence].
  by destruct (load name s).
Qed.

Lemma optimize_model_run name objective timeout w :
  optimize_model name objective timeout w =
    (Ok (name, task_value (store w) name objective),
     World (store w)
       (studies w ++ task_studies (store w) name objective)
       (trace w ++ task_events (store w) name objective)).
Proof.
  destruct w as [s st tr].
  unfold optimize_model, create_study, task_value, task_events, task_studies.
  run_monad. destruct (is_none (load name s)) eqn:Hn; cbn.
  - unfold search_value, search_log, run_with_timeout, study_optimize,
      best_params, best_trial.
    run_monad. rewrite insert_app_r_alt, Nat.sub_diag by done. cbn.
    destruct objective as [o b]; cbn.
    destruct o, b; cbn; rewrite ?list_lookup_middle by done; cbn;
      by rewrite <- ?app_assoc.
  - by rewrite !app_nil_r.
Qed.

(** One run of [optimize_model] when nothing is assumed of what the search
    raises. *)
Lemma optimize_model_guarded_run
    name (objective : objective_t guarded_outcome) timeout w :
  optimize_model name objective timeout w =
    if is_none (load name (store w)) then
      let started log :=
        World (store w) (studies w ++ [best_found objective])
              (trace w ++ [EvCreateStudy name; EvSearch name] ++ log) in
      match outcome objective with
      | Returns =>
          match best_found objective with
          | Some t => (Ok (name, PyDict (params t)), started [])
          | None =>
              (Ok (name, PyNone),
               started [EvLog ERROR
                          (MsgException name
                             "No trials are completed yet.")])
          end
      | Expires =>
          (Ok (name, PyNone), started [EvLog ERROR (MsgTimedOut name)])
      | Raises exc =>
          if is_TimeoutError exc then
            (Ok (name, PyNone), started [EvLog ERROR (MsgTimedOut name)])
          else if is_Exception exc then
            (Ok (name, PyNone),
             started [EvLog ERROR (MsgException name (exn_str exc))])
          else (Raise exc, started [])
      end
    else (Ok (name, load name (store w)), w).
Proof.
  destruct w as [s st tr]. unfold optimize_model, create_study.
  run_monad. destruct (is_none (load name s)) eqn:Hn; cbn; [|done].
  unfold run_with_timeout, study_optimize, best_params, best_trial.
  run_monad. rewrite insert_app_r_alt, Nat.sub_diag by done. cbn.
  destruct objective as [o b]; cbn.
  destruct o as [| |exc]; [destruct b|..]; cbn;
    rewrite ?list_lookup_middle by done; cbn;
    rewrite <- ?app_assoc; try done.
  destruct exc; cbn; by rewrite <- ?app_assoc.
Qed.

(** A task outcome and its image among the guarded outcomes give the same
    run. *)
Lemma optimize_model_as_guarded name objective timeout w :
  optimize_model name objective timeout w =
    optimize_model name
      (Objective (as_guarded (outcome objective)) (best_found objective))
      timeout w.
Proof.
  rewrite optimize_model_run, optimize_model_guarded_run.
  unfold task_value, task_studies, task_events, search_value, search_log.
  destruct (is_none (load name (store w))).
  - by destruct objective as [[] []].
  - destruct w; cbn. by rewrite !app_nil_r.
Qed.

Lemma after_tasks_cons xs i order w :
  after_tasks xs order
    (match xs !! i with
     | Some x =>
         World (store w) (studies w ++ task_studies (store w) x.1 x.2)
               (trace w ++ task_events (store w) x.1 x.2)
     | None => w
     end) = after_tasks xs (i :: order) w.
Proof.
  unfold after_tasks, pool_studies, pool_events.
  destruct w as [s st tr]; cbn.
  destruct (xs !! i); cbn; by rewrite <- ?app_assoc.
Qed.

Lemma run_tasks_run timeout xs order futures w :
  run_tasks (λ x, optimize_model x.1 x.2 timeout) xs order futures w =
    (Ok (futures_after (store w) xs order futures), after_tasks xs order w).
Proof.
  revert futures w. induction order as [|i order IH]; intros futures w.
  - unfold after_tasks, pool_studies, pool_events. destruct w; cbn.
    by rewrite !app_nil_r.
  - cbn [run_tasks]. rewrite <- after_tasks_cons.
    unfold futures_after; cbn [foldl].
    destruct (xs !! i) as [x|] eqn:Hx.
    + rewrite optimize_model_run. by rewrite IH.
    + by rewrite IH.
Qed.

Lemma futures_after_lookup (s : St) xs order futures i x :
  xs !! i = Some x →
  futures_after s xs order futures !! i =
    if decide (i ∈ order) then Some (Ok (x.1, task_value s x.1 x.2))
    else futures !! i.
Proof.
  intros Hx. revert futures.
  induction order as [|j order IH]; intros futures.
  - by rewrite decide_False by apply not_elem_of_nil.
  - unfold futures_after in *. cbn [foldl]. rewrite IH.
    destruct (decide (i ∈ order)) as [Hin|Hin].
    + rewrite decide_True by (by right). done.
    + destruct (decide (j = i)) as [->|Hne].
      * rewrite decide_True by left. by rewrite Hx, lookup_insert_eq.
      * rewrite decide_False by (by intros [?|?]%elem_of_cons).
        destruct (xs !! j); [by rewrite lookup_insert_ne|done].
Qed.

Lemma collect_ok {B} (bs : list B) w :
  collect ((λ b, Some (Ok b)) <$> bs) w = (Ok bs, w).
Proof.
  induction bs as [|b bs IH]; [done|]. cbn. run_monad. by rewrite IH.
Qed.

(** The pool hands back one result per task, in the order of submission,
    whatever the order of completion. *)
Lemma executor_map_run timeout xs order w :
  order ≡ₚ seq 0 (length xs) →
  executor_map (λ x, optimize_model x.1 x.2 timeout) xs order w =
    (Ok (task_results (store w) xs), after_tasks xs order w).
Proof.
  intros Hperm. unfold executor_map. run_monad.
  rewrite run_tasks_run.
  replace (after_tasks xs order w) with
    (World (store w) (studies (after_tasks xs order w))
           (trace (after_tasks xs order w))) by done.
  set (w' := World _ _ _). clearbody w'.
  assert ((λ i, futures_after (store w) xs order ∅ !! i)
            <$> seq 0 (length xs)
          = (λ b, Some (Ok b)) <$> task_results (store w) xs) as ->;
    [|apply collect_ok].
  apply list_eq. intros k. unfold task_results.
  rewrite !list_lookup_fmap.
  destruct (xs !! k) as [x|] eqn:Hx; cbn.
  - assert (seq 0 (length xs) !! k = Some k) as ->.
    { apply lookup_seq. split; [done|]. by eapply lookup_lt_Some. }
    cbn. rewrite (futures_after_lookup _ _ _ _ _ x) by done.
    rewrite decide_True; [done|].
    rewrite Hperm. apply elem_of_seq. split; [lia|].
    cbn. by eapply lookup_lt_Some.
  - rewrite (proj2 (lookup_ge_None _ _)); [done|].
    rewrite length_seq. by apply lookup_ge_None.
Qed.

Lemma merge_result_run params name v w :
  merge_result params (name, v) w =
    if is_dict v then
      (Ok (<[name := v]> params),
       World (save v name (store w)) (studies w)
             (trace w ++ [EvSave name v]))
    else if is_dict (load name (store w)) then
      (Ok (<[name := load name (store w)]> params), w)
    else (Raise (ValueError ("Invalid parameters for " +:+ name +:+ ".")), w).
Proof.
  unfold merge_result. rewrite dict_test. run_monad.
  destruct (is_dict v) eqn:Hv; cbn.
  - rewrite lookup_insert_eq. run_monad. by rewrite Hv.
  - rewrite lookup_insert_eq. run_monad.
    by destruct (is_dict (load name (store w))).
Qed.

Lemma saved_store_snoc rs r (s : St) :
  saved_store (rs ++ [r]) s =
    if is_dict r.2 then save r.2 r.1 (saved_store rs s) else saved_store rs s.
Proof. unfold saved_store. by rewrite foldl_app. Qed.

Lemma saved_store_app rs1 rs2 (s : St) :
  saved_store (rs1 ++ rs2) s = saved_store rs2 (saved_store rs1 s).
Proof. unfold saved_store. by rewrite foldl_app. Qed.

Lemma saved_events_cons r rs :
  saved_events (r :: rs) =
    (if is_dict r.2 then [EvSave r.1 r.2] else []) ++ saved_events rs.
Proof. done. Qed.

(** Merging results that are all dicts saves each of them. *)
Lemma merge_all_dicts rs params w :
  Forall (λ r, is_dict r.2 = true) rs →
  for_each merge_result params rs w =
    (Ok (merged_params rs params),
     World (saved_store rs (store w)) (studies w)
           (trace w ++ saved_events rs)).
Proof.
  intros Hall. revert params w.
  induction Hall as [|[name v] rs Hv _ IH]; intros params w.
  - destruct w; unfold saved_events; cbn. by rewrite app_nil_r.
  - cbn [for_each]. unfold_bind. rewrite merge_result_run. cbn in Hv.
    rewrite Hv, IH, saved_events_cons. cbn. rewrite Hv.
    by rewrite <- app_assoc.
Qed.

(** The merge stops at the first result that is not a dict when the store
    has no dict for that model either. *)
Lemma merge_stops pre name v post params w :
  Forall (λ r, is_dict r.2 = true) pre →
  is_dict v = false →
  is_dict (load name (saved_store pre (store w))) = false →
  for_each merge_result params (pre ++ (name, v) :: post) w =
    (Raise (ValueError ("Invalid parameters for " +:+ name +:+ ".")),
     World (saved_store pre (store w)) (studies w)
           (trace w ++ saved_events pre)).
Proof.
  intros Hall Hv Hl. revert params w Hl.
  induction Hall as [|[name' v'] pre Hv' _ IH]; intros params w Hl.
  - cbn [app for_each]. unfold_bind. rewrite merge_result_run.
    cbn in Hl. rewrite Hv, Hl. destruct w; unfold saved_events; cbn.
    by rewrite app_nil_r.
  - cbn [app for_each]. unfold_bind. rewrite merge_result_run. cbn in Hv'.
    rewrite Hv'. rewrite IH.
    + rewrite saved_events_cons. cbn. rewrite Hv'.
      by rewrite <- app_assoc.
    + cbn. cbn in Hl. by rewrite Hv' in Hl.
Qed.

Lemma ensure_loaded_dict params name d w :
  params !! name = Some (PyDict d) →
  ensure_loaded params name w = (Ok params, w).
Proof.
  intros Hp. unfold ensure_loaded. rewrite Hp. run_monad.
  rewrite Hp. by run_monad.
Qed.

(** The second pass changes nothing when every name it visits already has
    a dict. *)
Lemma ensure_all_loaded names params w :
  (∀ name, name ∈ names → ∃ d, params !! name = Some (PyDict d)) →
  for_each ensure_loaded params names w = (Ok params, w).
Proof.
  intros Hall. induction names as [|name names IH]; [done|].
  cbn [for_each]. unfold_bind.
  destruct (Hall name) as [d Hd]; [left|].
  rewrite (ensure_loaded_dict _ _ d) by done.
  apply IH. intros name' Hin. apply Hall. by right.
Qed.

Lemma first_failure {A} (P : A → bool) (l : list A) :
  Forall (λ x, P x = true) l ∨
  ∃ pre x post, l = pre ++ x :: post ∧
    Forall (λ x, P x = true) pre ∧ P x = false.
Proof.
  induction l as [|a l [IH|(pre & x & post & -> & Hpre & Hx)]].
  - by left.
  - destruct (P a) eqn:Ha.
    + left. by constructor.
    + right. by exists [], a, l.
  - destruct (P a) eqn:Ha.
    + right. exists (a :: pre), x, post. split; [done|].
      split; [by constructor|done].
    + right. by exists [], a, (pre ++ x :: post).
Qed.

End Steps.

(** ** The orchestrator as a whole *)

Section Orchestrator.
Context {St : Type} `{ParamStore St}.
Implicit Types (w : world St) (name : string) (v : pyval) (s : St).
Implicit Types (objective : objective_t task_outcome).
Implicit Types (order : list nat) (timeout : Z).

Lemma tasks_names o1 o2 o3 o4 :
  (models_to_optimize o1 o2 o3 o4).*1 = model_names.
Proof. done. Qed.

Lemma model_names_NoDup : NoDup model_names.
Proof. compute_done. Qed.

Lemma task_results_names s xs : (task_results s xs).*1 = xs.*1.
Proof.
  unfold task_results. rewrite <- list_fmap_compose. by apply list_fmap_ext.
Qed.

Lemma task_results_app s xs ys :
  task_results s (xs ++ ys) = task_results s xs ++ task_results s ys.
Proof. unfold task_results. by rewrite fmap_app. Qed.

Lemma task_value_not_dict s name objective :
  is_dict (task_value s name objective) = false →
  is_dict (load name s) = false.
Proof.
  unfold task_value. destruct (is_none (load name s)) eqn:Hn; [|done].
  by destruct (load name s).
Qed.

(** A save under one name does not show under another. *)
Lemma load_saved_store `{!ParamStoreLaws St} rs name s :
  name ∉ rs.*1 → load name (saved_store rs s) = load name s.
Proof.
  induction rs as [|r rs IH] using rev_ind; [done|].
  rewrite fmap_app, saved_store_snoc. cbn.
  intros [Hrs Hr]%not_elem_of_app.
  destruct (is_dict r.2); [|by apply IH].
  rewrite load_save_ne; [by apply IH|].
  intros Heq. apply Hr. rewrite Heq. left.
Qed.

(** A save under a name shows under that name, whatever is saved under
    other names later. *)
Lemma load_saved_store_dict `{!ParamStoreLaws St} pre name d post s :
  name ∉ post.*1 →
  load name (saved_store (pre ++ (name, PyDict d) :: post) s) = PyDict d.
Proof.
  intros Hpost.
  change ((name, PyDict d) :: post) with ([(name, PyDict d)] ++ post).
  rewrite !saved_store_app, load_saved_store by done. apply load_save_eq.
Qed.

(** When every task result is a dict the call returns them, in the fixed
    order, after saving each. *)
Lemma orchestrator_returns o1 o2 o3 o4 timeout order w :
  order ≡ₚ seq 0 4 →
  Forall (λ r, is_dict r.2 = true)
    (task_results (store w) (models_to_optimize o1 o2 o3 o4)) →
  optimize_hyperparameters o1 o2 o3 o4 timeout order w =
    (Ok (task_value (store w) "xgb" o1, task_value (store w) "rf" o2,
         task_value (store w) "stacking" o3,
         task_value (store w) "reg_stacking" o4),
     World
       (saved_store
          (task_results (store w) (models_to_optimize o1 o2 o3 o4))
          (store w))
       (studies (after_tasks (models_to_optimize o1 o2 o3 o4) order w))
       (trace (after_tasks (models_to_optimize o1 o2 o3 o4) order w) ++
          saved_events
            (task_results (store w) (models_to_optimize o1 o2 o3 o4)))).
Proof.
  intros Hperm Hall. unfold optimize_hyperparameters. unfold_bind.
  change [("xgb", o1); ("rf", o2); ("stacking", o3); ("reg_stacking", o4)]
    with (models_to_optimize o1 o2 o3 o4).
  rewrite executor_map_run by done.
  rewrite merge_all_dicts by done.
  cbn in Hall.
  apply Forall_cons in Hall as [[d1 E1]%is_dict_inv Hall].
  apply Forall_cons in Hall as [[d2 E2]%is_dict_inv Hall].
  apply Forall_cons in Hall as [[d3 E3]%is_dict_inv Hall].
  apply Forall_cons in Hall as [[d4 E4]%is_dict_inv _].
  cbn in E1, E2, E3, E4.
  rewrite ensure_all_loaded.
  - unfold task_results, merged_params; cbn. rewrite E1, E2, E3, E4.
    run_monad. by simplify_map_eq.
  - unfold task_results, merged_params, model_names; cbn.
    rewrite E1, E2, E3, E4. intros name Hin.
    repeat (apply elem_of_cons in Hin as [->|Hin]);
      [..|by apply elem_of_nil in Hin]; eexists; by simplify_map_eq.
Qed.

(** When some task result is not a dict the call raises at the first such
    model, after saving the results before it. *)
Lemma orchestrator_raises `{!ParamStoreLaws St}
    o1 o2 o3 o4 timeout order w pre name objective post :
  order ≡ₚ seq 0 4 →
  models_to_optimize o1 o2 o3 o4 = pre ++ (name, objective) :: post →
  Forall (λ r, is_dict r.2 = true) (task_results (store w) pre) →
  is_dict (task_value (store w) name objective) = false →
  optimize_hyperparameters o1 o2 o3 o4 timeout order w =
    (Raise (ValueError ("Invalid parameters for " +:+ name +:+ ".")),
     World
       (saved_store (task_results (store w) pre) (store w))
       (studies (after_tasks (models_to_optimize o1 o2 o3 o4) order w))
       (trace (after_tasks (models_to_optimize o1 o2 o3 o4) order w) ++
          saved_events (task_results (store w) pre))).
Proof.
  intros Hperm Hsplit Hpre Hv. unfold optimize_hyperparameters. unfold_bind.
  change [("xgb", o1); ("rf", o2); ("stacking", o3); ("reg_stacking", o4)]
    with (models_to_optimize o1 o2 o3 o4).
  rewrite executor_map_run by done.
  assert (name ∉ pre.*1) as Hfresh.
  { pose proof model_names_NoDup as Hnd.
    rewrite <- (tasks_names o1 o2 o3 o4), Hsplit, fmap_app in Hnd.
    apply NoDup_app in Hnd as (_ & Hnd & _).
    intros Hin. apply (Hnd _ Hin). cbn. left. }
  rewrite Hsplit at 1. rewrite task_results_app.
  cbn [task_results fmap list_fmap].
  cbn [fst snd].
  rewrite merge_stops; [done|done|done|].
  cbn. rewrite load_saved_store by (by rewrite task_results_names).
  by eapply task_value_not_dict.
Qed.

Lemma task_events_elem s name objective ev :
  ev ∈ task_events s name objective →
  is_none (load name s) = true ∧
  (ev = EvCreateStudy name ∨ ev = EvSearch name ∨
   ∃ m, ev = EvLog ERROR m).
Proof.
  unfold task_events, search_log.
  destruct (is_none (load name s)); [|by intros ?%elem_of_nil].
  intros Hin. split; [done|].
  destruct (outcome objective), (best_found objective); cbn in Hin;
    repeat (apply elem_of_cons in Hin as [->|Hin]); eauto;
    by apply elem_of_nil in Hin.
Qed.

Lemma pool_events_elem s xs order ev :
  ev ∈ pool_events s xs order →
  ∃ x, x ∈ xs ∧ ev ∈ task_events s x.1 x.2.
Proof.
  unfold pool_events. intros (evs & Hev & Hevs)%list_elem_of_join.
  apply list_elem_of_fmap in Hevs as (i & -> & _).
  destruct (xs !! i) as [x|] eqn:Hx; [|by apply elem_of_nil in Hev].
  exists x. split; [|done]. by eapply list_elem_of_lookup_2.
Qed.

Lemma saved_events_elem rs ev :
  ev ∈ saved_events rs →
  ∃ r, r ∈ rs ∧ is_dict r.2 = true ∧ ev = EvSave r.1 r.2.
Proof.
  unfold saved_events. intros (evs & Hev & Hevs)%list_elem_of_join.
  apply list_elem_of_fmap in Hevs as (r & -> & Hr).
  destruct (is_dict r.2) eqn:Hd; [|by apply elem_of_nil in Hev].
  apply list_elem_of_singleton in Hev. eauto.
Qed.

Lemma saved_events_dict name d rs :
  (name, PyDict d) ∈ rs → EvSave name (PyDict d) ∈ saved_events rs.
Proof.
  intros Hin. unfold saved_events. apply list_elem_of_join.
  exists [EvSave name (PyDict d)]. split; [left|].
  apply list_elem_of_fmap. exists (name, PyDict d). by split.
Qed.

(** A model with a record in the store starts no search. *)
Lemma pool_events_cached s xs order name :
  is_none (load name s) = false →
  (EvCreateStudy name ∉ pool_events s xs order) ∧
  (EvSearch name ∉ pool_events s xs order).
Proof.
  intros Hn.
  split; intros Hin; apply pool_events_elem in Hin as ([n o] & _ & Hev);
    apply task_events_elem in Hev as [Hnone Hev]; cbn in Hnone;
    destruct Hev as [Hev|[Hev|[m Hev]]]; simplify_eq; congruence.
Qed.

Lemma pool_events_cons s xs i order :
  pool_events s xs (i :: order) =
    match xs !! i with
    | Some x => task_events s x.1 x.2
    | None => []
    end ++ pool_events s xs order.
Proof. done. Qed.

(** When every model has a record the pool does nothing at all. *)
Lemma pool_events_all_cached s xs order :
  (∀ x, x ∈ xs → is_none (load x.1 s) = false) →
  pool_events s xs order = [].
Proof.
  intros Hall.
  induction order as [|i order IH]; [done|].
  rewrite pool_events_cons, IH.
  destruct (xs !! i) as [x|] eqn:Hx; [|done].
  unfold task_events. rewrite Hall; [done|].
  by eapply list_elem_of_lookup_2.
Qed.

Lemma task_value_cached s name objective :
  is_none (load name s) = false →
  task_value s name objective = load name s.
Proof. unfold task_value. by intros ->. Qed.

(** Of two splits of a list, one at an element that passes a test after a
    prefix that passes it, the other at the first element that fails it, the
    passing element comes first. *)
Lemma passes_before_failure {A} (P : A → bool)
    (l pre pre' post post' : list A) (x y : A) :
  l = pre ++ x :: post →
  l = pre' ++ y :: post' →
  Forall (λ a, P a = true) pre → P x = true → P y = false →
  x ∈ pre'.
Proof.
  intros Hx Hy Hpre Hpx Hpy.
  assert (l !! length pre = Some x) as Hlx
    by (rewrite Hx; by apply list_lookup_middle).
  assert (l !! length pre' = Some y) as Hly
    by (rewrite Hy; by apply list_lookup_middle).
  destruct (decide (length pre < length pre')%nat) as [Hlt|Hge].
  - rewrite Hy, lookup_app_l in Hlx by done.
    by eapply list_elem_of_lookup_2.
  - exfalso. destruct (decide (length pre' = length pre)) as [Heq|Hne].
    + rewrite Heq in Hly. congruence.
    + rewrite Hx, lookup_app_l in Hly by lia.
      rewrite Forall_lookup in Hpre. specialize (Hpre _ _ Hly). cbn in Hpre.
      congruence.
Qed.

Lemma Forall_task_results s xs :
  Forall (λ x, is_dict (task_value s x.1 x.2) = true) xs →
  Forall (λ r, is_dict r.2 = true) (task_results s xs).
Proof. intros Hall. unfold task_results. by apply Forall_fmap. Qed.

(** Every call goes one of two ways. *)
Lemma orchestrator_cases `{!ParamStoreLaws St} o1 o2 o3 o4 timeout order w :
  order ≡ₚ seq 0 4 →
  (Forall (λ x, is_dict (task_value (store w) x.1 x.2) = true)
     (models_to_optimize o1 o2 o3 o4) ∧
   optimize_hyperparameters o1 o2 o3 o4 timeout order w =
     (Ok (task_value (store w) "xgb" o1, task_value (store w) "rf" o2,
          task_value (store w) "stacking" o3,
          task_value (store w) "reg_stacking" o4),
      World
        (saved_store
           (task_results (store w) (models_to_optimize o1 o2 o3 o4))
           (store w))
        (studies (after_tasks (models_to_optimize o1 o2 o3 o4) order w))
        (trace (after_tasks (models_to_optimize o1 o2 o3 o4) order w) ++
           saved_events
             (task_results (store w) (models_to_optimize o1 o2 o3 o4)))))
  ∨
  (∃ pre name objective post,
     models_to_optimize o1 o2 o3 o4 = pre ++ (name, objective) :: post ∧
     Forall (λ x, is_dict (task_value (store w) x.1 x.2) = true) pre ∧
     is_dict (task_value (store w) name objective) = false ∧
     optimize_hyperparameters o1 o2 o3 o4 timeout order w =
       (Raise (ValueError ("Invalid parameters for " +:+ name +:+ ".")),
        World
          (saved_store (task_results (store w) pre) (store w))
          (studies (after_tasks (models_to_optimize o1 o2 o3 o4) order w))
          (trace (after_tasks (models_to_optimize o1 o2 o3 o4) order w) ++
             saved_events (task_results (store w) pre)))).
Proof.
  intros Hperm.
  destruct (first_failure (λ x, is_dict (task_value (store w) x.1 x.2))
              (models_to_optimize o1 o2 o3 o4))
    as [Hall|(pre & [name objective] & post & Hsplit & Hpre & Hbad)].
  - left. split; [done|].
    apply orchestrator_returns; [done|]. by apply Forall_task_results.
  - right. exists pre, name, objective, post. repeat split; try done.
    eapply orchestrator_raises; [done..| |done].
    by apply Forall_task_results.
Qed.

(** A dict result that the merge loop reaches is accepted as the entry of
    its model, handed to [save_hyperparameters] and found in the store
    afterwards. *)
Lemma dict_result_saved `{!ParamStoreLaws St}
    o1 o2 o3 o4 timeout order w pre name objective post d :
  order ≡ₚ seq 0 4 →
  models_to_optimize o1 o2 o3 o4 = pre ++ (name, objective) :: post →
  task_value (store w) name objective = PyDict d →
  Forall (λ x, is_dict (task_value (store w) x.1 x.2) = true) pre →
  let '(r, w') := optimize_hyperparameters o1 o2 o3 o4 timeout order w in
  load name (store w') = PyDict d ∧
  (∃ evs, trace w' = trace w ++ evs ∧ EvSave name (PyDict d) ∈ evs) ∧
  (∀ t, r = Ok t → entry name t = Some (PyDict d)).
Proof.
  intros Hperm Hsplit Hd Hpre.
  assert (NoDup (pre.*1 ++ name :: post.*1)) as Hnd.
  { pose proof model_names_NoDup as Hnd.
    by rewrite <- (tasks_names o1 o2 o3 o4), Hsplit, fmap_app in Hnd. }
  destruct (orchestrator_cases o1 o2 o3 o4 timeout order w Hperm)
    as [[Hall ->]|(pre' & n & o & post' & Hsplit' & Hpre' & Hbad & ->)];
    cbv beta iota; cbn [trace store after_tasks].
  - split; [|split].
    + rewrite Hsplit, task_results_app. cbn [task_results fmap list_fmap].
      cbn [fst snd]. rewrite Hd.
      apply load_saved_store_dict.
      fold (task_results (store w) post). rewrite task_results_names.
      apply NoDup_app in Hnd as (_ & _ & Hnd).
      by apply NoDup_cons in Hnd as [? _].
    + eexists. rewrite <- app_assoc. split; [done|].
      apply elem_of_app. right. apply saved_events_dict.
      rewrite Hsplit, task_results_app. apply elem_of_app. right.
      cbn [task_results fmap list_fmap]. cbn [fst snd]. rewrite Hd. left.
    + intros t [= <-].
      assert ((name, objective) ∈ models_to_optimize o1 o2 o3 o4) as Hin.
      { rewrite Hsplit. apply elem_of_app. right. left. }
      unfold models_to_optimize in Hin.
      repeat (apply elem_of_cons in Hin as [[= -> ->]|Hin]);
        [..|by apply elem_of_nil in Hin];
        unfold entry; repeat case_decide; try done; by rewrite Hd.
  - assert ((name, objective) ∈ pre') as Hin.
    { eapply (passes_before_failure
                (λ x, is_dict (task_value (store w) x.1 x.2))); try done.
      cbn. by rewrite Hd. }
    apply list_elem_of_split in Hin as (l1 & l2 & ->).
    split; [|split; [|done]].
    + rewrite task_results_app. cbn [task_results fmap list_fmap].
      cbn [fst snd]. rewrite Hd.
      apply load_saved_store_dict.
      fold (task_results (store w) l2). rewrite task_results_names.
      pose proof model_names_NoDup as Hnd'.
      rewrite <- (tasks_names o1 o2 o3 o4), Hsplit', !fmap_app in Hnd'.
      cbn in Hnd'. rewrite <- app_assoc in Hnd'. cbn in Hnd'.
      apply NoDup_app in Hnd' as (_ & _ & Hnd').
      apply NoDup_cons in Hnd' as [Hnot _].
      intros Hin. apply Hnot. apply elem_of_app. by left.
    + eexists. rewrite <- app_assoc. split; [done|].
      apply elem_of_app. right. apply saved_events_dict.
      rewrite task_results_app. apply elem_of_app. right.
      cbn [task_results fmap list_fmap]. cbn [fst snd]. rewrite Hd. left.
Qed.

(** The events of a call are those of the pool followed by saves: the
    second pass never logs its warning. *)
Lemma call_events `{!ParamStoreLaws St} o1 o2 o3 o4 timeout order w :
  order ≡ₚ seq 0 4 →
  ∃ rs, trace (optimize_hyperparameters o1 o2 o3 o4 timeout order w).2 =
          trace w
            ++ pool_events (store w) (models_to_optimize o1 o2 o3 o4) order
            ++ saved_events rs.
Proof.
  intros Hperm.
  destruct (orchestrator_cases o1 o2 o3 o4 timeout order w Hperm)
    as [[Hall ->]|(pre' & n & o & post' & Hsplit' & Hpre' & Hbad & ->)];
    cbn [snd trace after_tasks]; eexists; by rewrite <- app_assoc.
Qed.

Lemma no_warning_is_logged `{!ParamStoreLaws St}
    o1 o2 o3 o4 timeout order w :
  order ≡ₚ seq 0 4 →
  ∃ evs, trace (optimize_hyperparameters o1 o2 o3 o4 timeout order w).2 =
           trace w ++ evs ∧
         ∀ m, EvLog WARNING m ∉ evs.
Proof.
  intros Hperm.
  destruct (call_events o1 o2 o3 o4 timeout order w Hperm) as [rs ->].
  eexists. split; [done|]. intros m [Hin|Hin]%elem_of_app.
  - apply pool_events_elem in Hin as ([n o] & _ & Hin).
    apply task_events_elem in Hin as [_ [?|[?|[? ?]]]]; discriminate.
  - apply saved_events_elem in Hin as (r & _ & _ & ?). discriminate.
Qed.

(** A search that runs and does not hand back parameters aborts the whole
    call: the store has no record for the model (else no search would have
    run), so the merged value is [None] and the type check raises. *)
Lemma failed_search_aborts `{!ParamStoreLaws St}
    o1 o2 o3 o4 timeout order w name objective :
  order ≡ₚ seq 0 4 →
  (name, objective) ∈ models_to_optimize o1 o2 o3 o4 →
  load name (store w) = PyNone →
  outcome objective ≠ Success →
  ∃ n, n ∈ model_names ∧
    (optimize_hyperparameters o1 o2 o3 o4 timeout order w).1 =
      Raise (ValueError ("Invalid parameters for " +:+ n +:+ ".")).
Proof.
  intros Hperm Hin Hload Hout.
  destruct (orchestrator_cases o1 o2 o3 o4 timeout order w Hperm)
    as [[Hall ->]|(pre' & n & o & post' & Hsplit' & Hpre' & Hbad & ->)];
    cbn [fst].
  - exfalso. rewrite Forall_forall in Hall. specialize (Hall _ Hin).
    cbn in Hall. unfold task_value, search_value in Hall.
    rewrite Hload in Hall. cbn in Hall.
    by destruct (outcome objective), (best_found objective).
  - exists n. split; [|done].
    rewrite <- (tasks_names o1 o2 o3 o4), Hsplit', fmap_app.
    apply elem_of_app. right. left.
Qed.

End Orchestrator.

(** ** The claims *)

Section Claims.
Context {St : Type} `{ParamStore St} `{!ParamStoreLaws St}.
Implicit Types (w : world St) (name : string) (v : pyval) (s : St).
Implicit Types (objective : objective_t task_outcome).
Implicit Types (order : list nat) (timeout : Z).


(** C7. When the store holds a dict for each of the four models, two calls
    in a row (same objectives) return the same tuple, the stored dicts, and
    neither call creates a study or starts a search. *)
Theorem cache_skip_idempotent
    o1 o2 o3 o4 timeout order order' w d1 d2 d3 d4 :
  order ≡ₚ seq 0 4 →
  order' ≡ₚ seq 0 4 →
  load "xgb" (store w) = PyDict d1 →
  load "rf" (store w) = PyDict d2 →
  load "stacking" (store w) = PyDict d3 →
  load "reg_stacking" (store w) = PyDict d4 →
  let '(r1, w1) := optimize_hyperparameters o1 o2 o3 o4 timeout order w in
  let '(r2, w2) := optimize_hyperparameters o1 o2 o3 o4 timeout order' w1 in
  r1 = Ok (PyDict d1, PyDict d2, PyDict d3, PyDict d4) ∧
  r2 = r1 ∧
  ∃ evs1 evs2,
    trace w1 = trace w ++ evs1 ∧ trace w2 = trace w1 ++ evs2 ∧
    ∀ name, (EvCreateStudy name ∉ evs1 ++ evs2) ∧
            (EvSearch name ∉ evs1 ++ evs2).
Proof.
  intros Hperm Hperm' H1 H2 H3 H4.
  assert (∀ w0 : world St,
    load "xgb" (store w0) = PyDict d1 → load "rf" (store w0) = PyDict d2 →
    load "stacking" (store w0) = PyDict d3 →
    load "reg_stacking" (store w0) = PyDict d4 →
    task_results (store w0) (models_to_optimize o1 o2 o3 o4) =
      [("xgb", PyDict d1); ("rf", PyDict d2); ("stacking", PyDict d3);
       ("reg_stacking", PyDict d4)] ∧
    ∀ ord, pool_events (store w0) (models_to_optimize o1 o2 o3 o4) ord = [])
    as Hcached.
  { intros w0 E1 E2 E3 E4. split.
    - unfold task_results, models_to_optimize; cbn.
      by rewrite !task_value_cached, E1, E2, E3, E4
        by by (rewrite ?E1, ?E2, ?E3, ?E4).
    - intros ord. apply pool_events_all_cached. intros x Hx.
      unfold models_to_optimize in Hx.
      repeat (apply elem_of_cons in Hx as [->|Hx]);
        [..|by apply elem_of_nil in Hx]; cbn;
        by rewrite ?E1, ?E2, ?E3, ?E4. }
  destruct (Hcached w H1 H2 H3 H4) as [Hrs Hpool].
  rewrite (orchestrator_returns o1 o2 o3 o4 timeout order w Hperm)
    by (rewrite Hrs; by repeat constructor).
  set (w1 := World _ _ _).
  assert (store w1 = saved_store
            [("xgb", PyDict d1); ("rf", PyDict d2); ("stacking", PyDict d3);
             ("reg_stacking", PyDict d4)] (store w)) as Hstore
    by (unfold w1; cbn [store]; by rewrite Hrs).
  assert (load "xgb" (store w1) = PyDict d1) as H1'.
  { rewrite Hstore. apply (load_saved_store_dict []). compute_done. }
  assert (load "rf" (store w1) = PyDict d2) as H2'.
  { rewrite Hstore. apply (load_saved_store_dict [_]). compute_done. }
  assert (load "stacking" (store w1) = PyDict d3) as H3'.
  { rewrite Hstore. apply (load_saved_store_dict [_; _]). compute_done. }
  assert (load "reg_stacking" (store w1) = PyDict d4) as H4'.
  { rewrite Hstore. apply (load_saved_store_dict [_; _; _]). compute_done. }
  destruct (Hcached w1 H1' H2' H3' H4') as [Hrs' Hpool'].
  rewrite (orchestrator_returns o1 o2 o3 o4 timeout order' w1 Hperm')
    by (rewrite Hrs'; by repeat constructor).
  rewrite !task_value_cached by (by rewrite ?H1, ?H2, ?H3, ?H4).
  rewrite !task_value_cached by (by rewrite ?H1', ?H2', ?H3', ?H4').
  rewrite H1, H2, H3, H4, H1', H2', H3', H4'.
  split; [done|]. split; [done|].
  exists
    (saved_events (task_results (store w) (models_to_optimize o1 o2 o3 o4))),
    (saved_events (task_results (store w1) (models_to_optimize o1 o2 o3 o4))).
  cbn [trace after_tasks]. rewrite Hpool', app_nil_r.
  split; [subst w1; cbn; by rewrite Hpool, app_nil_r|]. split; [done|].
  intros name.
  split; intros [Hin|Hin]%elem_of_app;
    apply saved_events_elem in Hin as (r & _ & _ & Hr); discriminate.
Qed.

(** C9, as amended. When the user interrupts the search of
    [optimize_hyperparameters_base], the interrupt is caught and logged and
    never reaches the caller; the run goes on exactly as after a search
    that stopped by itself with the same trials; and if a trial has
    completed by then, the function returns the parameters of the best
    one. *)
Theorem interrupt_is_clean_stop
    (objective : objective_t search_outcome) timeout w :
  outcome objective = Interrupted →
  let '(r, w') := optimize_hyperparameters_base objective timeout w in
  r ≠ Raise KeyboardInterrupt ∧
  (∃ evs, trace w' =
     trace w ++ [EvLog INFO MsgStarting; EvCreateStudy "base";
                 EvSearch "base"; EvLog INFO MsgInterrupted] ++ evs) ∧
  r = (optimize_hyperparameters_base
         (Objective Finished (best_found objective)) timeout w).1 ∧
  (∀ t, best_found objective = Some t → r = Ok (PyDict (params t))).
Proof.
  destruct objective as [o b]; cbn. intros ->.
  destruct w as [s st tr].
  unfold optimize_hyperparameters_base, study_optimize, best_value,
    best_params, best_trial.
  run_monad. rewrite insert_app_r_alt, Nat.sub_diag by done. cbn.
  destruct b as [t|]; repeat (rewrite list_lookup_middle by done; cbn);
    rewrite <- ?app_assoc; cbn.
  - split; [done|]. split; [by eexists|]. split; [done|].
    by intros ? [= ->].
  - split; [done|]. split; [by exists []|]. done.
Qed.

(** C4, as amended. [optimize_model] on a model without a record starts
    one search. If the search returns in time and a trial has completed,
    the result is [(name, best_params)] and nothing is logged; if it
    returns in time and no trial has completed, reading [best_params]
    raises, the exception is logged as an error and the result is
    [(name, None)]; on [TimeoutError] the timeout is logged as an error and
    the result is [(name, None)]; on any other exception that derives from
    [Exception] the exception is logged as an error and the result is
    [(name, None)]. An exception that does not derive from [Exception] is
    passed on to the caller; no other exception of the search escapes. *)
Theorem optimize_model_outcomes
    name (objective : objective_t guarded_outcome) timeout w :
  load name (store w) = PyNone →
  let started log :=
    World (store w) (studies w ++ [best_found objective])
          (trace w ++ [EvCreateStudy name; EvSearch name] ++ log) in
  (∀ t, outcome objective = Returns → best_found objective = Some t →
     optimize_model name objective timeout w =
       (Ok (name, PyDict (params t)), started [])) ∧
  (outcome objective = Returns → best_found objective = None →
     optimize_model name objective timeout w =
       (Ok (name, PyNone),
        started [EvLog ERROR
                   (MsgException name "No trials are completed yet.")])) ∧
  (outcome objective = Expires ∨ outcome objective = Raises TimeoutError →
     optimize_model name objective timeout w =
       (Ok (name, PyNone), started [EvLog ERROR (MsgTimedOut name)])) ∧
  (∀ exc, outcome objective = Raises exc →
     is_TimeoutError exc = false → is_Exception exc = true →
     optimize_model name objective timeout w =
       (Ok (name, PyNone),
        started [EvLog ERROR (MsgException name (exn_str exc))])) ∧
  (∀ exc, outcome objective = Raises exc → is_Exception exc = false →
     optimize_model name objective timeout w = (Raise exc, started [])) ∧
  ((∀ exc, outcome objective = Raises exc → is_Exception exc = true) →
   ∃ v w', optimize_model name objective timeout w = (Ok (name, v), w')).
Proof.
  intros Hload. rewrite optimize_model_guarded_run, Hload. cbn.
  split; [|split; [|split; [|split; [|split]]]].
  - by intros t -> ->.
  - by intros -> ->.
  - by intros [-> | ->].
  - intros exc -> Ht He. by rewrite Ht, He.
  - intros exc -> He. by destruct exc.
  - intros Hexc.
    destruct (outcome objective) as [| |exc] eqn:Ho;
      [destruct (best_found objective)|..]; eauto.
    rewrite (Hexc exc eq_refl).
    destruct (is_TimeoutError exc); eauto.
Qed.

(** C8. Whatever the order in which the four tasks finish, the pool hands
    their results back in the order of submission, each paired with its own
    model identifier. The merge loop enters each result under its own
    identifier: when the four merged values are dicts, [params] maps each
    identifier to the merged value of its model and the call returns the
    tuple of the merged values of xgb, rf, stacking and reg_stacking, in
    this order; otherwise the call raises for the first model, in the
    order of submission, whose merged value is not a dict. So the outcome
    of the call and the store it leaves do not depend on the order of
    completion. *)
Theorem results_follow_submission_order
    o1 o2 o3 o4 timeout order order' w :
  order ≡ₚ seq 0 4 →
  order' ≡ₚ seq 0 4 →
  let results :=
    [("xgb", task_value (store w) "xgb" o1);
     ("rf", task_value (store w) "rf" o2);
     ("stacking", task_value (store w) "stacking" o3);
     ("reg_stacking", task_value (store w) "reg_stacking" o4)] in
  (executor_map (λ x, optimize_model x.1 x.2 timeout)
     (models_to_optimize o1 o2 o3 o4) order w).1 = Ok results ∧
  (Forall (λ x, is_dict (merged_value (store w) x.1 x.2) = true)
     (models_to_optimize o1 o2 o3 o4) →
   (∀ w1, (for_each merge_result ∅ results w1).1 =
            Ok (<["reg_stacking" :=
                    merged_value (store w) "reg_stacking" o4]>
                  (<["stacking" := merged_value (store w) "stacking" o3]>
                     (<["rf" := merged_value (store w) "rf" o2]>
                        (<["xgb" := merged_value (store w) "xgb" o1]>
                           ∅))))) ∧
   (optimize_hyperparameters o1 o2 o3 o4 timeout order w).1 =
     Ok (merged_value (store w) "xgb" o1,
         merged_value (store w) "rf" o2,
         merged_value (store w) "stacking" o3,
         merged_value (store w) "reg_stacking" o4)) ∧
  (∀ pre name objective post,
     models_to_optimize o1 o2 o3 o4 = pre ++ (name, objective) :: post →
     Forall (λ x, is_dict (merged_value (store w) x.1 x.2) = true) pre →
     is_dict (merged_value (store w) name objective) = false →
     (optimize_hyperparameters o1 o2 o3 o4 timeout order w).1 =
       Raise (ValueError ("Invalid parameters for " +:+ name +:+ "."))) ∧
  (optimize_hyperparameters o1 o2 o3 o4 timeout order w).1 =
    (optimize_hyperparameters o1 o2 o3 o4 timeout order' w).1 ∧
  store (optimize_hyperparameters o1 o2 o3 o4 timeout order w).2 =
    store (optimize_hyperparameters o1 o2 o3 o4 timeout order' w).2 ∧
  (∀ t, (optimize_hyperparameters o1 o2 o3 o4 timeout order w).1 = Ok t →
     t = (merged_value (store w) "xgb" o1,
          merged_value (store w) "rf" o2,
          merged_value (store w) "stacking" o3,
          merged_value (store w) "reg_stacking" o4)).
Proof.
  intros Hperm Hperm'. cbv zeta.
  assert (∀ xs : list (string * objective_t task_outcome),
    Forall (λ x, is_dict (merged_value (store w) x.1 x.2) = true) xs →
    Forall (λ x, is_dict (task_value (store w) x.1 x.2) = true) xs)
    as Hmerged.
  { intros xs Hxs. eapply Forall_impl; [exact Hxs|]. intros x Hx.
    rewrite <- merged_value_task_value. exact Hx. }
  split; [|split; [|split; [|split; [|split]]]].
  - by rewrite executor_map_run.
  - intros Hall%Hmerged. rewrite !merged_value_task_value. split.
    + intros w1.
      change [("xgb", task_value (store w) "xgb" o1);
              ("rf", task_value (store w) "rf" o2);
              ("stacking", task_value (store w) "stacking" o3);
              ("reg_stacking", task_value (store w) "reg_stacking" o4)]
        with (task_results (store w) (models_to_optimize o1 o2 o3 o4)).
      by rewrite merge_all_dicts by by apply Forall_task_results.
    + by rewrite orchestrator_returns by by try apply Forall_task_results.
  - intros pre name objective post Hsplit Hpre%Hmerged Hbad.
    rewrite merged_value_task_value in Hbad.
    by rewrite (orchestrator_raises o1 o2 o3 o4 timeout order w
                  pre name objective post)
      by by try apply Forall_task_results.
  - destruct (first_failure (λ x, is_dict (task_value (store w) x.1 x.2))
                (models_to_optimize o1 o2 o3 o4))
      as [Hall|(pre & [name objective] & post & Hsplit & Hpre & Hbad)].
    + by rewrite !orchestrator_returns by by try apply Forall_task_results.
    + by rewrite !(orchestrator_raises o1 o2 o3 o4 timeout _ w
                    pre name objective post)
        by by try apply Forall_task_results.
  - destruct (first_failure (λ x, is_dict (task_value (store w) x.1 x.2))
                (models_to_optimize o1 o2 o3 o4))
      as [Hall|(pre & [name objective] & post & Hsplit & Hpre & Hbad)].
    + by rewrite !orchestrator_returns by by try apply Forall_task_results.
    + by rewrite !(orchestrator_raises o1 o2 o3 o4 timeout _ w
                    pre name objective post)
        by by try apply Forall_task_results.
  - intros t. rewrite !merged_value_task_value.
    destruct (orchestrator_cases o1 o2 o3 o4 timeout order w Hperm)
      as [[Hall ->]|(pre & name & objective & post & _ & _ & _ & ->)];
      cbn [fst]; congruence.
Qed.

(** C10, as amended. The body of the merge loop, given a dict, stores it
    as the entry of its model and calls [save_hyperparameters] with it,
    wherever the dict came from. So in a call, every model whose task
    returned a dict and which the loop reaches (the merged values of the
    models before it passed the type check) is written back to the store,
    also when the dict had only been loaded from the store; and a call in
    which all four models have a stored dict does nothing but write the
    four dicts back. *)
Theorem merge_saves_every_dict_reached o1 o2 o3 o4 timeout order w :
  order ≡ₚ seq 0 4 →
  (∀ params name d w0,
     merge_result params (name, PyDict d) w0 =
       (Ok (<[name := PyDict d]> params),
        World (save (PyDict d) name (store w0)) (studies w0)
              (trace w0 ++ [EvSave name (PyDict d)]))) ∧
  (∀ pre name objective post d,
     models_to_optimize o1 o2 o3 o4 = pre ++ (name, objective) :: post →
     (optimize_model name objective timeout w).1 = Ok (name, PyDict d) →
     Forall (λ x, is_dict (merged_value (store w) x.1 x.2) = true) pre →
     ∃ evs,
       trace (optimize_hyperparameters o1 o2 o3 o4 timeout order w).2 =
         trace w ++ evs ∧
       EvSave name (PyDict d) ∈ evs) ∧
  (∀ d1 d2 d3 d4,
     load "xgb" (store w) = PyDict d1 →
     load "rf" (store w) = PyDict d2 →
     load "stacking" (store w) = PyDict d3 →
     load "reg_stacking" (store w) = PyDict d4 →
     trace (optimize_hyperparameters o1 o2 o3 o4 timeout order w).2 =
       trace w ++ [EvSave "xgb" (PyDict d1); EvSave "rf" (PyDict d2);
                   EvSave "stacking" (PyDict d3);
                   EvSave "reg_stacking" (PyDict d4)]).
Proof.
  intros Hperm. split; [|split].
  - intros params name d w0. by rewrite merge_result_run.
  - intros pre name objective post d Hsplit Hres Hpre.
    rewrite optimize_model_run in Hres. cbn in Hres.
    injection Hres as Hd.
    pose proof (dict_result_saved o1 o2 o3 o4 timeout order w
                  pre name objective post d Hperm Hsplit Hd) as Hsaved.
    destruct (optimize_hyperparameters o1 o2 o3 o4 timeout order w)
      as [r w'].
    apply Hsaved.
    eapply Forall_impl; [exact Hpre|]. intros x Hx.
    rewrite <- merged_value_task_value. exact Hx.
  - intros d1 d2 d3 d4 H1 H2 H3 H4.
    rewrite orchestrator_returns; [|done|].
    + cbn [snd trace after_tasks].
      rewrite pool_events_all_cached, app_nil_r.
      * unfold task_results, models_to_optimize; cbn [fmap list_fmap fst snd].
        rewrite !task_value_cached by (by rewrite ?H1, ?H2, ?H3, ?H4).
        by rewrite H1, H2, H3, H4.
      * intros x Hx. unfold models_to_optimize in Hx.
        repeat (apply elem_of_cons in Hx as [->|Hx]);
          [..|by apply elem_of_nil in Hx]; cbn;
          by rewrite ?H1, ?H2, ?H3, ?H4.
    + unfold task_results, models_to_optimize; cbn [fmap list_fmap fst snd].
      rewrite !task_value_cached by (by rewrite ?H1, ?H2, ?H3, ?H4).
      rewrite H1, H2, H3, H4. by repeat constructor.
Qed.

End Claims.

(** ** The claims on the finite-map store, and concrete runs *)

Section Concrete.
Implicit Types (w : world (gmap string pyval)).

Lemma gmap_load_dict (s : gmap string pyval) name d :
  load name s = PyDict d → s !! name = Some (PyDict d).
Proof. cbn. by destruct (s !! name) as [v|]; cbn; [intros ->|]. Qed.

(** C2, on the code: xgb has no record and its search times out while the
    other three searches succeed. The task of xgb returns [("xgb", None)],
    the store has nothing to fall back on, and the type check of the merge
    loop raises before the second pass, which would have substituted the
    empty dict and logged the warning, is reached: the call raises
    [ValueError], and neither a warning nor a save is in the trace. *)
Theorem timeout_without_record_raises :
  (optimize_model "xgb" timing_out 3600 empty_world).1 = Ok ("xgb", PyNone) ∧
  load "xgb" (store empty_world) = PyNone ∧
  (optimize_hyperparameters timing_out succeeding succeeding succeeding
     3600 [0; 1; 2; 3]%nat empty_world).1 =
    Raise (ValueError "Invalid parameters for xgb.") ∧
  trace (optimize_hyperparameters timing_out succeeding succeeding succeeding
           3600 [0; 1; 2; 3]%nat empty_world).2 =
    [EvCreateStudy "xgb"; EvSearch "xgb"; EvLog ERROR (MsgTimedOut "xgb");
     EvCreateStudy "rf"; EvSearch "rf";
     EvCreateStudy "stacking"; EvSearch "stacking";
     EvCreateStudy "reg_stacking"; EvSearch "reg_stacking"].
Proof. repeat split; vm_compute; reflexivity. Qed.

(** C1, on the code: the store is empty (so nothing in it is damaged), the
    search of rf raises an exception and the other three searches succeed.
    The task of rf returns [("rf", None)], the merged value of rf is the
    missing value [None], and the type check of the merge loop raises: the
    caller gets a [ValueError] and no tuple. The same slip as in C2. *)
Theorem exception_without_record_aborts_call :
  store empty_world = ∅ ∧
  (optimize_model "rf" failing 3600 empty_world).1 = Ok ("rf", PyNone) ∧
  merged_value (store empty_world) "rf" failing = PyNone ∧
  (optimize_hyperparameters succeeding failing succeeding succeeding
     3600 [0; 1; 2; 3]%nat empty_world).1 =
    Raise (ValueError "Invalid parameters for rf.").
Proof. repeat split; vm_compute; reflexivity. Qed.

(** C6, on the code: xgb and rf have a dict in the store, the search of
    stacking times out and that of reg_stacking succeeds. Each merged value
    is a dict or the missing value [None]; none is an object of another
    shape. Yet the call is aborted, by the missing value of stacking: the
    type check counts [None] as not a dict. The same slip as in C2. *)
Theorem missing_value_aborts_call :
  merged_value (store half_tuned_world) "xgb" succeeding =
    PyDict (params a_trial) ∧
  merged_value (store half_tuned_world) "rf" succeeding =
    PyDict (params another_trial) ∧
  merged_value (store half_tuned_world) "stacking" timing_out = PyNone ∧
  merged_value (store half_tuned_world) "reg_stacking" succeeding =
    PyDict (params a_trial) ∧
  (optimize_hyperparameters succeeding succeeding timing_out succeeding
     3600 shuffled half_tuned_world).1 =
    Raise (ValueError "Invalid parameters for stacking.").
Proof. repeat split; vm_compute; reflexivity. Qed.

(** C4, the claim as stated fails, twice. A search that ends in time
    without a completed trial does not give [(name, best_params)]: reading
    [study.best_params] raises, and the result is [(name, None)] with an
    error in the log. And an exception of the search that does not derive
    from [Exception] is not caught by [except Exception]: it escapes. *)
Lemma search_result_missing_or_escaping :
  load "xgb" (store empty_world) = PyNone ∧
  optimize_model "xgb" ending_empty 3600 empty_world =
    (Ok ("xgb", PyNone),
     World ∅ [None]
           [EvCreateStudy "xgb"; EvSearch "xgb";
            EvLog ERROR
              (MsgException "xgb" "No trials are completed yet.")]) ∧
  (optimize_model "xgb" aborted 3600 empty_world).1 =
    Raise KeyboardInterrupt.
Proof. repeat split; vm_compute; reflexivity. Qed.

(** C5, the claim as stated fails: xgb has a damaged record, the search of
    rf succeeds with a dict, and the call aborts at xgb, so the dict of rf
    is neither returned nor saved. *)
Lemma dict_result_lost_on_abort :
  (optimize_model "rf" succeeding_too 3600 damaged_world).1 =
    Ok ("rf", PyDict (params another_trial)) ∧
  (optimize_hyperparameters succeeding succeeding_too succeeding succeeding
     3600 [0; 1; 2; 3]%nat damaged_world).1 =
    Raise (ValueError "Invalid parameters for xgb.") ∧
  store (optimize_hyperparameters succeeding succeeding_too succeeding
           succeeding 3600 [0; 1; 2; 3]%nat damaged_world).2 !! "rf" = None ∧
  trace (optimize_hyperparameters succeeding succeeding_too succeeding
           succeeding 3600 [0; 1; 2; 3]%nat damaged_world).2 =
    [EvCreateStudy "rf"; EvSearch "rf";
     EvCreateStudy "stacking"; EvSearch "stacking";
     EvCreateStudy "reg_stacking"; EvSearch "reg_stacking"].
Proof. repeat split; vm_compute; reflexivity. Qed.

(** C5, as amended. A task result that is a non-null dict and that the
    merge loop reaches (the merged values of the models before it passed
    the type check; this is so for every model when the call returns) is
    the entry of its model in a returned tuple, is handed to
    [save_hyperparameters] and is the record of the model in the store
    afterwards. In particular, from an empty store and with four searches
    that succeed, the call returns the four best parameter sets and leaves
    a store of exactly four records, which are those sets. *)
Theorem dict_results_are_persisted o1 o2 o3 o4 timeout order w :
  order ≡ₚ seq 0 4 →
  (∀ pre name objective post d,
     models_to_optimize o1 o2 o3 o4 = pre ++ (name, objective) :: post →
     (optimize_model name objective timeout w).1 = Ok (name, PyDict d) →
     Forall (λ x, is_dict (merged_value (store w) x.1 x.2) = true) pre →
     (∀ t, (optimize_hyperparameters o1 o2 o3 o4 timeout order w).1 = Ok t →
        entry name t = Some (PyDict d)) ∧
     (∃ evs,
        trace (optimize_hyperparameters o1 o2 o3 o4 timeout order w).2 =
          trace w ++ evs ∧
        EvSave name (PyDict d) ∈ evs) ∧
     store (optimize_hyperparameters o1 o2 o3 o4 timeout order w).2 !! name =
       Some (PyDict d)) ∧
  (∀ t1 t2 t3 t4,
     store w = ∅ →
     o1 = Objective Success (Some t1) → o2 = Objective Success (Some t2) →
     o3 = Objective Success (Some t3) → o4 = Objective Success (Some t4) →
     (optimize_hyperparameters o1 o2 o3 o4 timeout order w).1 =
       Ok (PyDict (params t1), PyDict (params t2),
           PyDict (params t3), PyDict (params t4)) ∧
     store (optimize_hyperparameters o1 o2 o3 o4 timeout order w).2 =
       <["xgb" := PyDict (params t1)]>
         (<["rf" := PyDict (params t2)]>
            (<["stacking" := PyDict (params t3)]>
               (<["reg_stacking" := PyDict (params t4)]> ∅))) ∧
     size (store (optimize_hyperparameters o1 o2 o3 o4
                    timeout order w).2) = 4%nat).
Proof.
  intros Hperm. split.
  - intros pre name objective post d Hsplit Hres Hpre.
    rewrite optimize_model_run in Hres. cbn in Hres.
    injection Hres as Hd.
    assert (Forall (λ x, is_dict (task_value (store w) x.1 x.2) = true) pre)
      as Hpre'.
    { eapply Forall_impl; [exact Hpre|]. intros x Hx.
      rewrite <- merged_value_task_value. exact Hx. }
    pose proof (dict_result_saved o1 o2 o3 o4 timeout order w
                  pre name objective post d Hperm Hsplit Hd Hpre') as Hsaved.
    destruct (optimize_hyperparameters o1 o2 o3 o4 timeout order w)
      as [r w'].
    destruct Hsaved as (Hload & Hev & Hentry).
    split; [done|]. split; [done|]. by apply gmap_load_dict.
  - intros t1 t2 t3 t4 Hempty -> -> -> ->.
    rewrite orchestrator_returns; [|done|].
    + cbn [fst snd store]. rewrite Hempty.
      assert (∀ name o, task_value (∅ : gmap string pyval) name o
                        = search_value o) as Htv by done.
      unfold task_results, models_to_optimize; cbn [fmap list_fmap fst snd].
      rewrite !Htv. unfold search_value; cbn.
      split; [done|].
      assert (∀ (a b c d : pyval),
        (<["reg_stacking" := d]> (<["stacking" := c]> (<["rf" := b]>
           (<["xgb" := a]> (∅ : gmap string pyval)))))
        = <["xgb" := a]> (<["rf" := b]> (<["stacking" := c]>
           (<["reg_stacking" := d]> ∅)))) as ->.
      { intros a b c d. apply map_eq. intros k.
        repeat (rewrite lookup_insert; case_decide; try done; simplify_eq).
      }
      split; [done|].
      rewrite !map_size_insert_None, map_size_empty; [done|..];
        by simplify_map_eq.
    + rewrite Hempty. by repeat constructor.
Qed.

(** C9, the claim as stated fails: when the interrupt comes before the first
    trial has completed there are no best parameters, [study.best_trial]
    raises, and the [ValueError] reaches the caller. *)
Lemma interrupt_before_first_trial_raises :
  (optimize_hyperparameters_base interrupted_early 3600 empty_world).1 =
    Raise (ValueError "No trials are completed yet.") ∧
  trace (optimize_hyperparameters_base interrupted_early 3600 empty_world).2 =
    [EvLog INFO MsgStarting; EvCreateStudy "base"; EvSearch "base";
     EvLog INFO MsgInterrupted].
Proof. split; vm_compute; reflexivity. Qed.

(** C10, the claim as stated fails: rf has a stored dict, which its task
    returns, but xgb has a damaged record and the call aborts there, before
    the loop reaches rf; nothing is written back. *)
Lemma cached_dict_not_saved_on_abort :
  (optimize_model "rf" succeeding 3600 damaged_cached_world).1 =
    Ok ("rf", PyDict (params another_trial)) ∧
  (optimize_hyperparameters succeeding succeeding succeeding succeeding
     3600 [0; 1; 2; 3]%nat damaged_cached_world).1 =
    Raise (ValueError "Invalid parameters for xgb.") ∧
  ∀ p, EvSave "rf" p ∉
    trace (optimize_hyperparameters succeeding succeeding succeeding
             succeeding 3600 [0; 1; 2; 3]%nat damaged_cached_world).2.
Proof.
  split; [|split]; [vm_compute; reflexivity..|].
  intros p Hin.
  assert (trace (optimize_hyperparameters succeeding succeeding succeeding
                   succeeding 3600 [0; 1; 2; 3]%nat damaged_cached_world).2
          = [EvCreateStudy "stacking"; EvSearch "stacking";
             EvCreateStudy "reg_stacking"; EvSearch "reg_stacking"]) as Htr
    by (vm_compute; reflexivity).
  rewrite Htr in Hin.
  repeat (apply elem_of_cons in Hin as [?|Hin]); try discriminate.
  by apply elem_of_nil in Hin.
Qed.

(** *** The theorems at concrete inputs *)


Lemma dict_results_are_persisted_witness :
  shuffled ≡ₚ seq 0 4 ∧
  store (optimize_hyperparameters succeeding succeeding_too succeeding
           succeeding_too 3600 shuffled empty_world).2 =
    <["xgb" := PyDict (params a_trial)]>
      (<["rf" := PyDict (params another_trial)]>
         (<["stacking" := PyDict (params a_trial)]>
            (<["reg_stacking" := PyDict (params another_trial)]> ∅))).
Proof.
  split; [compute_done|].
  apply (dict_results_are_persisted succeeding succeeding_too succeeding
           succeeding_too 3600 shuffled empty_world);
    [compute_done|reflexivity..].
Defined.

Lemma cache_skip_idempotent_witness :
  shuffled ≡ₚ seq 0 4 ∧
  load "xgb" (store populated_world) = PyDict (params a_trial) ∧
  load "rf" (store populated_world) = PyDict (params another_trial) ∧
  load "stacking" (store populated_world) = PyDict ∅ ∧
  load "reg_stacking" (store populated_world) = PyDict (params a_trial) ∧
  let '(r1, w1) :=
    optimize_hyperparameters succeeding failing timing_out succeeding_too
      3600 shuffled populated_world in
  let '(r2, w2) :=
    optimize_hyperparameters succeeding failing timing_out succeeding_too
      3600 [0; 1; 2; 3]%nat w1 in
  r1 = Ok (PyDict (params a_trial), PyDict (params another_trial),
           PyDict ∅, PyDict (params a_trial)) ∧
  r2 = r1 ∧
  ∃ evs1 evs2,
    trace w1 = trace populated_world ++ evs1 ∧
    trace w2 = trace w1 ++ evs2 ∧
    ∀ name, (EvCreateStudy name ∉ evs1 ++ evs2) ∧
            (EvSearch name ∉ evs1 ++ evs2).
Proof.
  split; [compute_done|]. do 4 (split; [reflexivity|]).
  apply cache_skip_idempotent; first [compute_done | reflexivity].
Defined.

Lemma optimize_model_outcomes_witness :
  load "xgb" (store empty_world) = PyNone ∧
  optimize_model "xgb" raising 3600 empty_world =
    (Ok ("xgb", PyNone),
     World (store empty_world) (studies empty_world ++ [best_found raising])
           (trace empty_world ++ [EvCreateStudy "xgb"; EvSearch "xgb"] ++
              [EvLog ERROR (MsgException "xgb" "empty fold")])).
Proof.
  split; [reflexivity|].
  destruct (optimize_model_outcomes "xgb" raising 3600 empty_world)
    as (_ & _ & _ & Hexc & _); [reflexivity|].
  apply (Hexc (ValueError "empty fold")); reflexivity.
Defined.

Lemma results_follow_submission_order_witness :
  shuffled ≡ₚ seq 0 4 ∧
  [0; 1; 2; 3]%nat ≡ₚ seq 0 4 ∧
  Forall (λ x, is_dict (merged_value (store half_tuned_world) x.1 x.2) = true)
    (models_to_optimize succeeding_too succeeding succeeding_too
       succeeding) ∧
  (optimize_hyperparameters succeeding_too succeeding succeeding_too
     succeeding 3600 shuffled half_tuned_world).1 =
    Ok (merged_value (store half_tuned_world) "xgb" succeeding_too,
        merged_value (store half_tuned_world) "rf" succeeding,
        merged_value (store half_tuned_world) "stacking" succeeding_too,
        merged_value (store half_tuned_world) "reg_stacking" succeeding).
Proof.
  split; [compute_done|]. split; [compute_done|].
  split; [by repeat constructor|].
  apply (results_follow_submission_order succeeding_too succeeding
           succeeding_too succeeding 3600 shuffled [0; 1; 2; 3]%nat
           half_tuned_world); [compute_done|compute_done|].
  by repeat constructor.
Defined.

Lemma interrupt_is_clean_stop_witness :
  outcome interrupted_late = Interrupted ∧
  let '(r, w') :=
    optimize_hyperparameters_base interrupted_late 3600 empty_world in
  r ≠ Raise KeyboardInterrupt ∧
  (∃ evs, trace w' =
     trace empty_world ++
       [EvLog INFO MsgStarting; EvCreateStudy "base";
        EvSearch "base"; EvLog INFO MsgInterrupted] ++ evs) ∧
  r = (optimize_hyperparameters_base
         (Objective Finished (best_found interrupted_late)) 3600
         empty_world).1 ∧
  (∀ t, best_found interrupted_late = Some t → r = Ok (PyDict (params t))).
Proof.
  split; [reflexivity|].
  apply (interrupt_is_clean_stop interrupted_late 3600 empty_world).
  reflexivity.
Defined.

Lemma merge_saves_every_dict_reached_witness :
  shuffled ≡ₚ seq 0 4 ∧
  trace (optimize_hyperparameters succeeding failing timing_out
           succeeding_too 3600 shuffled populated_world).2 =
    trace populated_world ++
      [EvSave "xgb" (PyDict (params a_trial));
       EvSave "rf" (PyDict (params another_trial));
       EvSave "stacking" (PyDict ∅);
       EvSave "reg_stacking" (PyDict (params a_trial))].
Proof.
  split; [compute_done|].
  apply (merge_saves_every_dict_reached succeeding failing timing_out
           succeeding_too 3600 shuffled populated_world);
    first [compute_done | reflexivity].
Defined.

End Concrete.

(** ** Further properties of the module *)

Section Further.
Context {St : Type} `{ParamStore St}.
Implicit Types (w : world St) (name : string) (v : pyval) (s : St).
Implicit Types (objective : objective_t task_outcome).
Implicit Types (order : list nat) (timeout : Z).
Implicit Types (params : gmap string pyval) (rs : list (string * pyval)).

(** The merge loop keeps [params] a map of dicts and gives every result it
    has merged an entry. *)
Lemma merge_keeps_dicts rs params w params' w' :
  (∀ n v, params !! n = Some v → is_dict v = true) →
  for_each merge_result params rs w = (Ok params', w') →
  (∀ n v, params' !! n = Some v → is_dict v = true) ∧
  (∀ n, n ∈ rs.*1 → is_Some (params' !! n)) ∧
  (∀ n, is_Some (params !! n) → is_Some (params' !! n)).
Proof.
  revert params w. induction rs as [|[name v] rs IH]; intros params w Hinv.
  - cbn. intros [= <- <-]. split; [done|]. split; [|done].
    by intros n ?%elem_of_nil.
  - cbn [for_each]. unfold_bind. rewrite merge_result_run.
    assert (∀ p w0,
      is_dict p = true →
      for_each merge_result (<[name := p]> params) rs w0 = (Ok params', w') →
      (∀ n v, params' !! n = Some v → is_dict v = true) ∧
      (∀ n, n ∈ ((name, v) :: rs).*1 → is_Some (params' !! n)) ∧
      (∀ n, is_Some (params !! n) → is_Some (params' !! n))) as Hstep.
    { intros p w0 Hp Hrun.
      destruct (IH (<[name := p]> params) w0) as (Hd & Hin & Hkeep);
        [|done|].
      - intros n v0. rewrite lookup_insert. case_decide; [|by apply Hinv].
        by intros [= <-].
      - split; [done|]. split.
        + intros n [->|Hn]%elem_of_cons; [|by apply Hin].
          apply Hkeep. rewrite lookup_insert_eq. by eexists.
        + intros n Hn. apply Hkeep. rewrite lookup_insert.
          case_decide; [by eexists|done]. }
    destruct (is_dict v) eqn:Hv; [by apply Hstep|].
    destruct (is_dict (load name (store w))) eqn:Hl; [by apply Hstep|].
    discriminate.
Qed.

(** X1. When the merge loop over results that cover the four models does
    not raise, every entry of [params] is a dict, and the second pass
    ("ensure all parameters are loaded") leaves [params] and the world as
    they are: it loads nothing, logs nothing and substitutes no empty
    dict. *)
Theorem second_pass_changes_nothing rs w params w1 :
  (∀ n, n ∈ model_names → n ∈ rs.*1) →
  for_each merge_result ∅ rs w = (Ok params, w1) →
  (∀ n v, params !! n = Some v → is_dict v = true) ∧
  for_each ensure_loaded params model_names w1 = (Ok params, w1).
Proof.
  intros Hcover Hrun.
  destruct (merge_keeps_dicts rs ∅ w params w1) as (Hd & Hin & _);
    [by intros n v ?%lookup_empty_Some|done|].
  split; [done|]. apply ensure_all_loaded. intros n Hn.
  destruct (Hin n (Hcover n Hn)) as [v Hv].
  destruct (is_dict_inv v (Hd n v Hv)) as [d ->]. by exists d.
Qed.

(** X2. [optimize_model] never writes the store. It raises only when its
    search raises an exception that does not derive from [Exception], and
    then it raises that exception; otherwise it returns its model's name
    paired with [None], a dict, or the stored record. When the store has a
    record of any kind, damaged ones included, it returns that record as
    it is and does nothing else at all. *)
Theorem optimize_model_frame
    name (objective : objective_t guarded_outcome) timeout w :
  store (optimize_model name objective timeout w).2 = store w ∧
  (∀ exc, (optimize_model name objective timeout w).1 = Raise exc →
     is_Exception exc = false ∧ outcome objective = Raises exc ∧
     load name (store w) = PyNone) ∧
  (∀ r, (optimize_model name objective timeout w).1 = Ok r →
     r.1 = name ∧
     (r.2 = PyNone ∨ is_dict r.2 = true ∨ r.2 = load name (store w))) ∧
  (is_none (load name (store w)) = false →
     optimize_model name objective timeout w =
       (Ok (name, load name (store w)), w)).
Proof.
  rewrite optimize_model_guarded_run.
  destruct (is_none (load name (store w))) eqn:Hn.
  - assert (load name (store w) = PyNone) as Hload
      by by destruct (load name (store w)).
    destruct (outcome objective) as [| |exc] eqn:Ho;
      [destruct (best_found objective)|..|destruct exc]; cbn;
      (split; [done|]);
      (split;
         [intros exc' Hr;
          first [discriminate Hr | by injection Hr as <-]|]);
      (split;
         [intros r Hr;
          first [discriminate Hr | injection Hr as <-; cbn; auto]|]);
      intros Hf; congruence.
  - split; [done|]. split; [by intros exc Hr|].
    split; [intros r [= <-]; cbn; auto|done].
Qed.

Lemma pool_events_intro s xs order i x ev :
  i ∈ order → xs !! i = Some x → ev ∈ task_events s x.1 x.2 →
  ev ∈ pool_events s xs order.
Proof.
  intros Hi Hx Hev. unfold pool_events. apply list_elem_of_join.
  exists (task_events s x.1 x.2). split; [done|].
  apply list_elem_of_fmap. exists i. by rewrite Hx.
Qed.

Lemma pool_studies_length s xs order order' :
  order ≡ₚ order' →
  length (pool_studies s xs order) = length (pool_studies s xs order').
Proof. intros Hperm. unfold pool_studies. by rewrite Hperm. Qed.

(** The first components of a sublist of the tasks are pairwise distinct. *)
Lemma tasks_split_NoDup o1 o2 o3 o4
    (pre post : list (string * objective_t task_outcome)) x :
  models_to_optimize o1 o2 o3 o4 = pre ++ x :: post →
  NoDup (pre.*1 ++ x.1 :: post.*1).
Proof.
  intros Hsplit. pose proof model_names_NoDup as Hnd.
  by rewrite <- (tasks_names o1 o2 o3 o4), Hsplit, fmap_app in Hnd.
Qed.

Section Laws.
Context `{!ParamStoreLaws St}.

(** The world a call leaves: the pool's studies and events, then the saves
    of some of the results. *)
Lemma call_world o1 o2 o3 o4 timeout order w :
  order ≡ₚ seq 0 4 →
  ∃ xs,
    xs `sublist_of` models_to_optimize o1 o2 o3 o4 ∧
    Forall (λ x, is_dict (task_value (store w) x.1 x.2) = true) xs ∧
    (optimize_hyperparameters o1 o2 o3 o4 timeout order w).2 =
      World (saved_store (task_results (store w) xs) (store w))
            (studies w ++
               pool_studies (store w) (models_to_optimize o1 o2 o3 o4) order)
            (trace w ++
               pool_events (store w) (models_to_optimize o1 o2 o3 o4) order
               ++ saved_events (task_results (store w) xs)).
Proof.
  intros Hperm.
  destruct (orchestrator_cases o1 o2 o3 o4 timeout order w Hperm)
    as [[Hall ->]|(pre & n & o & post & Hsplit & Hpre & Hbad & ->)];
    cbn [snd after_tasks studies trace].
  - eexists. split; [done|]. split; [done|]. by rewrite <- app_assoc.
  - exists pre. split; [|split; [done|by rewrite <- app_assoc]].
    rewrite Hsplit. by apply sublist_inserts_r.
Qed.

(** Saving task results never changes what a stored dict loads as. *)
Lemma load_after_saves s (xs : list (string * objective_t task_outcome))
    name d :
  NoDup xs.*1 →
  load name s = PyDict d →
  load name (saved_store (task_results s xs) s) = PyDict d.
Proof.
  intros Hnd Hload.
  destruct (decide (name ∈ xs.*1)) as [Hin|Hout].
  - apply list_elem_of_fmap in Hin as ([n o] & -> & Hin).
    cbn [fst] in *.
    apply list_elem_of_split in Hin as (l1 & l2 & ->).
    rewrite task_results_app. cbn [task_results fmap list_fmap fst snd].
    rewrite task_value_cached by by rewrite Hload.
    rewrite Hload. apply load_saved_store_dict.
    fold (task_results s l2). rewrite task_results_names.
    rewrite fmap_app in Hnd. apply NoDup_app in Hnd as (_ & _ & Hnd).
    by apply NoDup_cons in Hnd as [? _].
  - rewrite load_saved_store; [done|]. by rewrite task_results_names.
Qed.

Lemma sublist_names_NoDup o1 o2 o3 o4
    (xs : list (string * objective_t task_outcome)) :
  xs `sublist_of` models_to_optimize o1 o2 o3 o4 → NoDup xs.*1.
Proof.
  intros Hsub. eapply sublist_NoDup; [|by apply fmap_sublist].
  rewrite tasks_names. apply model_names_NoDup.
Qed.

(** X3. A search that was started and hands back no parameters (it timed
    out, it raised, or it ended without a completed trial) aborts the
    whole call: the call raises the [ValueError] of the type check. *)
Theorem unfinished_search_aborts_call
    o1 o2 o3 o4 timeout order w name objective :
  order ≡ₚ seq 0 4 →
  (name, objective) ∈ models_to_optimize o1 o2 o3 o4 →
  load name (store w) = PyNone →
  outcome objective ≠ Success ∨ best_found objective = None →
  ∃ n, n ∈ model_names ∧
    (optimize_hyperparameters o1 o2 o3 o4 timeout order w).1 =
      Raise (ValueError ("Invalid parameters for " +:+ n +:+ ".")).
Proof.
  intros Hperm Hin Hload Hout.
  destruct (orchestrator_cases o1 o2 o3 o4 timeout order w Hperm)
    as [[Hall ->]|(pre' & n & o & post' & Hsplit' & Hpre' & Hbad & ->)];
    cbn [fst].
  - exfalso. rewrite Forall_forall in Hall. specialize (Hall _ Hin).
    cbn in Hall. unfold task_value, search_value in Hall.
    rewrite Hload in Hall. cbn in Hall.
    destruct (outcome objective), (best_found objective);
      try discriminate; by destruct Hout.
  - exists n. split; [|done].
    rewrite <- (tasks_names o1 o2 o3 o4), Hsplit', fmap_app.
    apply elem_of_app. right. left.
Qed.

(** X4. The only thing a call ever logs is the error of a search that was
    started for a model without a record: never a warning, never
    anything for a model with a record. *)
Theorem call_logs_only_search_errors o1 o2 o3 o4 timeout order w :
  order ≡ₚ seq 0 4 →
  ∃ evs,
    trace (optimize_hyperparameters o1 o2 o3 o4 timeout order w).2 =
      trace w ++ evs ∧
    ∀ l m, EvLog l m ∈ evs →
      l = ERROR ∧
      ∃ name objective,
        (name, objective) ∈ models_to_optimize o1 o2 o3 o4 ∧
        load name (store w) = PyNone ∧
        (m = MsgTimedOut name ∨ ∃ exc, m = MsgException name exc).
Proof.
  intros Hperm.
  destruct (call_world o1 o2 o3 o4 timeout order w Hperm)
    as (xs & _ & _ & ->).
  eexists. split; [done|]. intros l m [Hin|Hin]%elem_of_app.
  - apply pool_events_elem in Hin as ([n o] & Hx & Hin). cbn in Hin.
    unfold task_events in Hin.
    destruct (load n (store w)) eqn:Hload; cbn in Hin;
      try by apply elem_of_nil in Hin.
    apply elem_of_cons in Hin as [?|Hin]; [done|].
    apply elem_of_cons in Hin as [?|Hin]; [done|].
    unfold search_log in Hin.
    destruct (outcome o), (best_found o);
      repeat (apply elem_of_cons in Hin as [[= -> ->]|Hin]);
      try (by apply elem_of_nil in Hin);
      (split; [done|]); exists n, o; eauto 6.
  - apply saved_events_elem in Hin as (r & _ & _ & ?). discriminate.
Qed.

(** X5. A call never touches the record of anything but its four models. *)
Theorem other_records_untouched o1 o2 o3 o4 timeout order w name :
  order ≡ₚ seq 0 4 →
  name ∉ model_names →
  load name (store (optimize_hyperparameters o1 o2 o3 o4 timeout order w).2)
    = load name (store w).
Proof.
  intros Hperm Hname.
  destruct (call_world o1 o2 o3 o4 timeout order w Hperm)
    as (xs & Hsub & _ & ->).
  cbn [store]. apply load_saved_store. rewrite task_results_names.
  intros Hin. apply Hname. rewrite <- (tasks_names o1 o2 o3 o4).
  eapply elem_of_sublist; [done|by apply fmap_sublist].
Qed.

(** X6. A dict that is in the store is still there after a call, whether
    the call returns or raises: tuned parameters are never replaced by a
    new search. *)
Theorem stored_dict_is_kept o1 o2 o3 o4 timeout order w name d :
  order ≡ₚ seq 0 4 →
  load name (store w) = PyDict d →
  load name (store (optimize_hyperparameters o1 o2 o3 o4 timeout order w).2)
    = PyDict d.
Proof.
  intros Hperm Hload.
  destruct (call_world o1 o2 o3 o4 timeout order w Hperm)
    as (xs & Hsub & _ & ->).
  cbn [store]. apply load_after_saves; [|done].
  by eapply sublist_names_NoDup.
Qed.

Lemma model_has_task o1 o2 o3 o4 name :
  name ∈ model_names →
  ∃ objective i,
    models_to_optimize o1 o2 o3 o4 !! i = Some (name, objective) ∧
    (i < 4)%nat.
Proof.
  unfold model_names. intros Hin.
  repeat (apply elem_of_cons in Hin as [->|Hin]);
    [..|by apply elem_of_nil in Hin].
  - exists o1, 0%nat. split; [done|lia].
  - exists o2, 1%nat. split; [done|lia].
  - exists o3, 2%nat. split; [done|lia].
  - exists o4, 3%nat. split; [done|lia].
Qed.

(** A call on a store with a dict for each model: nothing but the four
    write-backs. *)
Lemma cache_skip_call o1 o2 o3 o4 timeout order w d1 d2 d3 d4 :
  order ≡ₚ seq 0 4 →
  load "xgb" (store w) = PyDict d1 →
  load "rf" (store w) = PyDict d2 →
  load "stacking" (store w) = PyDict d3 →
  load "reg_stacking" (store w) = PyDict d4 →
  (optimize_hyperparameters o1 o2 o3 o4 timeout order w).1 =
    Ok (PyDict d1, PyDict d2, PyDict d3, PyDict d4) ∧
  trace (optimize_hyperparameters o1 o2 o3 o4 timeout order w).2 =
    trace w ++ [EvSave "xgb" (PyDict d1); EvSave "rf" (PyDict d2);
                EvSave "stacking" (PyDict d3);
                EvSave "reg_stacking" (PyDict d4)].
Proof.
  intros Hperm H1 H2 H3 H4.
  assert (task_results (store w) (models_to_optimize o1 o2 o3 o4) =
            [("xgb", PyDict d1); ("rf", PyDict d2); ("stacking", PyDict d3);
             ("reg_stacking", PyDict d4)]) as Hrs.
  { unfold task_results, models_to_optimize; cbn [fmap list_fmap fst snd].
    rewrite !task_value_cached by (by rewrite ?H1, ?H2, ?H3, ?H4).
    by rewrite H1, H2, H3, H4. }
  rewrite orchestrator_returns; [|done|rewrite Hrs; by repeat constructor].
  cbn [fst snd trace after_tasks].
  rewrite !task_value_cached by (by rewrite ?H1, ?H2, ?H3, ?H4).
  rewrite H1, H2, H3, H4. split; [done|].
  rewrite pool_events_all_cached, app_nil_r, Hrs; [done|].
  intros x Hx. unfold models_to_optimize in Hx.
  repeat (apply elem_of_cons in Hx as [->|Hx]);
    [..|by apply elem_of_nil in Hx]; cbn;
    by rewrite ?H1, ?H2, ?H3, ?H4.
Qed.

(** X7. A record that is neither [None] nor a dict blocks its model for
    good: no study is created and no search is started for the model (the
    record is not [None]), every call raises the [ValueError] of the type
    check, and the record is left as it is. *)
Theorem damaged_record_blocks_call o1 o2 o3 o4 timeout order w name :
  order ≡ₚ seq 0 4 →
  name ∈ model_names →
  is_none (load name (store w)) = false →
  is_dict (load name (store w)) = false →
  (∃ n, n ∈ model_names ∧
     (optimize_hyperparameters o1 o2 o3 o4 timeout order w).1 =
       Raise (ValueError ("Invalid parameters for " +:+ n +:+ "."))) ∧
  load name (store (optimize_hyperparameters o1 o2 o3 o4 timeout order w).2)
    = load name (store w) ∧
  ∃ evs,
    trace (optimize_hyperparameters o1 o2 o3 o4 timeout order w).2 =
      trace w ++ evs ∧
    (EvCreateStudy name ∉ evs) ∧ (EvSearch name ∉ evs).
Proof.
  intros Hperm Hname Hn Hd.
  destruct (model_has_task o1 o2 o3 o4 name Hname) as (o & i & Hi & _).
  apply list_elem_of_lookup_2 in Hi.
  pose proof (pool_events_cached (store w)
                (models_to_optimize o1 o2 o3 o4) order name Hn) as [Hc Hs].
  assert (∀ xs : list (string * objective_t task_outcome),
    Forall (λ x, is_dict (task_value (store w) x.1 x.2) = true) xs →
    name ∉ xs.*1) as Hout.
  { intros xs Hall Hin.
    apply list_elem_of_fmap in Hin as ([n' o'] & -> & Hin).
    rewrite Forall_forall in Hall. specialize (Hall _ Hin). cbn in *.
    rewrite task_value_cached in Hall by done. congruence. }
  destruct (orchestrator_cases o1 o2 o3 o4 timeout order w Hperm)
    as [[Hall ->]|(pre & n & o' & post & Hsplit & Hpre & Hbad & ->)];
    cbn [fst snd store trace after_tasks].
  - exfalso. apply (Hout _ Hall). apply list_elem_of_fmap.
    by exists (name, o).
  - split; [|split].
    + exists n. split; [|done].
      rewrite <- (tasks_names o1 o2 o3 o4), Hsplit, fmap_app.
      apply elem_of_app. right. left.
    + apply load_saved_store. rewrite task_results_names. by apply Hout.
    + eexists. rewrite <- app_assoc. split; [done|].
      split; apply not_elem_of_app; (split; [done|]);
        intros (r & _ & _ & ?)%saved_events_elem; discriminate.
Qed.

(** X8. When the merge aborts at a model, the results of that model and of
    the models submitted after it are dropped, found by a search or not:
    nothing is saved for them and their records are as before the call. *)
Theorem abort_discards_later_results
    o1 o2 o3 o4 timeout order w pre name objective post :
  order ≡ₚ seq 0 4 →
  models_to_optimize o1 o2 o3 o4 = pre ++ (name, objective) :: post →
  Forall (λ x, is_dict (merged_value (store w) x.1 x.2) = true) pre →
  is_dict (merged_value (store w) name objective) = false →
  (optimize_hyperparameters o1 o2 o3 o4 timeout order w).1 =
    Raise (ValueError ("Invalid parameters for " +:+ name +:+ ".")) ∧
  ∃ evs,
    trace (optimize_hyperparameters o1 o2 o3 o4 timeout order w).2 =
      trace w ++ evs ∧
    ∀ n o, (n, o) ∈ (name, objective) :: post →
      load n (store (optimize_hyperparameters o1 o2 o3 o4
                       timeout order w).2) = load n (store w) ∧
      ∀ p, EvSave n p ∉ evs.
Proof.
  intros Hperm Hsplit Hpre Hbad. rewrite merged_value_task_value in Hbad.
  assert (Forall (λ x, is_dict (task_value (store w) x.1 x.2) = true) pre)
    as Hpre'.
  { eapply Forall_impl; [exact Hpre|]. intros x Hx.
    rewrite <- merged_value_task_value. exact Hx. }
  rewrite (orchestrator_raises o1 o2 o3 o4 timeout order w
             pre name objective post) by by try apply Forall_task_results.
  cbn [fst snd store trace after_tasks]. split; [done|].
  eexists. rewrite <- app_assoc. split; [done|]. intros n o Hin.
  assert (n ∉ pre.*1) as Hout.
  { pose proof (tasks_split_NoDup o1 o2 o3 o4 pre post _ Hsplit) as Hnd.
    apply NoDup_app in Hnd as (_ & Hnd & _). intros Hn. apply (Hnd _ Hn).
    change (n ∈ ((name, objective) :: post).*1).
    apply list_elem_of_fmap. by exists (n, o). }
  split.
  - apply load_saved_store. by rewrite task_results_names.
  - intros p [Hp|Hp]%elem_of_app.
    + apply pool_events_elem in Hp as (x & _ & Hp).
      apply task_events_elem in Hp as [_ [?|[?|[? ?]]]]; discriminate.
    + apply saved_events_elem in Hp as (r & Hr & _ & [= -> _]).
      apply Hout. rewrite <- (task_results_names (store w)).
      apply list_elem_of_fmap. by exists r.
Qed.

(** X9. A call that returns leaves each entry of its tuple as the record
    of its model; so the next call, whatever its objectives, timeout and
    order of completion, runs no search, returns the same tuple and only
    writes the four entries back. *)
Theorem returned_tuple_is_stored
    o1 o2 o3 o4 timeout order w xgb rf stacking reg_stacking :
  order ≡ₚ seq 0 4 →
  (optimize_hyperparameters o1 o2 o3 o4 timeout order w).1 =
    Ok (xgb, rf, stacking, reg_stacking) →
  let w1 := (optimize_hyperparameters o1 o2 o3 o4 timeout order w).2 in
  load "xgb" (store w1) = xgb ∧ load "rf" (store w1) = rf ∧
  load "stacking" (store w1) = stacking ∧
  load "reg_stacking" (store w1) = reg_stacking ∧
  ∀ o1' o2' o3' o4' timeout' order',
    order' ≡ₚ seq 0 4 →
    (optimize_hyperparameters o1' o2' o3' o4' timeout' order' w1).1 =
      Ok (xgb, rf, stacking, reg_stacking) ∧
    trace (optimize_hyperparameters o1' o2' o3' o4' timeout' order' w1).2 =
      trace w1 ++ [EvSave "xgb" xgb; EvSave "rf" rf;
                   EvSave "stacking" stacking;
                   EvSave "reg_stacking" reg_stacking].
Proof.
  intros Hperm.
  destruct (orchestrator_cases o1 o2 o3 o4 timeout order w Hperm)
    as [[Hall ->]|(pre & n & o' & post & _ & _ & _ & ->)];
    cbn [fst snd]; [|done].
  intros [= <- <- <- <-]. cbn in Hall.
  apply Forall_cons in Hall as [[d1 E1]%is_dict_inv Hall].
  apply Forall_cons in Hall as [[d2 E2]%is_dict_inv Hall].
  apply Forall_cons in Hall as [[d3 E3]%is_dict_inv Hall].
  apply Forall_cons in Hall as [[d4 E4]%is_dict_inv _].
  cbn [fst snd] in E1, E2, E3, E4.
  set (w1 := World _ _ _). cbv zeta.
  assert (store w1 = saved_store
            [("xgb", PyDict d1); ("rf", PyDict d2); ("stacking", PyDict d3);
             ("reg_stacking", PyDict d4)] (store w)) as Hstore.
  { unfold w1, task_results, models_to_optimize.
    cbn [store fmap list_fmap fst snd]. by rewrite E1, E2, E3, E4. }
  rewrite E1, E2, E3, E4.
  assert (load "xgb" (store w1) = PyDict d1) as H1.
  { rewrite Hstore. apply (load_saved_store_dict []). compute_done. }
  assert (load "rf" (store w1) = PyDict d2) as H2.
  { rewrite Hstore. apply (load_saved_store_dict [_]). compute_done. }
  assert (load "stacking" (store w1) = PyDict d3) as H3.
  { rewrite Hstore. apply (load_saved_store_dict [_; _]). compute_done. }
  assert (load "reg_stacking" (store w1) = PyDict d4) as H4.
  { rewrite Hstore. apply (load_saved_store_dict [_; _; _]). compute_done. }
  do 4 (split; [done|]).
  intros o1' o2' o3' o4' timeout' order' Hperm'.
  by apply cache_skip_call.
Qed.

(** X10. Every model without a record gets its study and its search in
    every call, also in a call that raises afterwards: the merge, and with
    it the type check, only starts when all searches have ended. *)
Theorem every_missing_model_is_searched o1 o2 o3 o4 timeout order w name :
  order ≡ₚ seq 0 4 →
  name ∈ model_names →
  load name (store w) = PyNone →
  ∃ evs,
    trace (optimize_hyperparameters o1 o2 o3 o4 timeout order w).2 =
      trace w ++ evs ∧
    EvCreateStudy name ∈ evs ∧ EvSearch name ∈ evs.
Proof.
  intros Hperm Hname Hload.
  destruct (call_world o1 o2 o3 o4 timeout order w Hperm)
    as (xs & _ & _ & ->).
  destruct (model_has_task o1 o2 o3 o4 name Hname) as (o & i & Hi & Hlt).
  assert (i ∈ order) as Hin.
  { rewrite Hperm. apply elem_of_seq. lia. }
  eexists. split; [done|].
  split; apply elem_of_app; left;
    apply (pool_events_intro _ _ _ i (name, o)); try done;
    unfold task_events; cbn; rewrite Hload; cbn.
  - left.
  - right. left.
Qed.

(** X11. A call creates one study for each model without a record and none
    for the others, whether it returns or raises. *)
Theorem one_study_per_missing_model o1 o2 o3 o4 timeout order w :
  order ≡ₚ seq 0 4 →
  length (studies (optimize_hyperparameters o1 o2 o3 o4
                     timeout order w).2) =
    (length (studies w) +
     length (filter (λ n, is_none (load n (store w)) = true)
               model_names))%nat.
Proof.
  intros Hperm.
  destruct (call_world o1 o2 o3 o4 timeout order w Hperm)
    as (xs & _ & _ & ->).
  cbn [studies]. rewrite length_app. f_equal.
  rewrite (pool_studies_length _ _ _ _ Hperm).
  unfold pool_studies, task_studies, model_names; cbn.
  destruct (is_none (load "xgb" (store w))),
    (is_none (load "rf" (store w))),
    (is_none (load "stacking" (store w))),
    (is_none (load "reg_stacking" (store w))); reflexivity.
Qed.

(** X12. In a call every write to the store comes after all the searches,
    and what is written is always a dict, under the name of one of the four
    models. *)
Theorem saves_follow_searches o1 o2 o3 o4 timeout order w :
  order ≡ₚ seq 0 4 →
  ∃ evs1 evs2,
    trace (optimize_hyperparameters o1 o2 o3 o4 timeout order w).2 =
      trace w ++ evs1 ++ evs2 ∧
    (∀ n p, EvSave n p ∉ evs1) ∧
    (∀ ev, ev ∈ evs2 → ∃ n d, ev = EvSave n (PyDict d) ∧ n ∈ model_names).
Proof.
  intros Hperm.
  destruct (call_world o1 o2 o3 o4 timeout order w Hperm)
    as (xs & Hsub & _ & ->).
  do 2 eexists. split; [done|]. split.
  - intros n p Hp. apply pool_events_elem in Hp as (x & _ & Hp).
    apply task_events_elem in Hp as [_ [?|[?|[? ?]]]]; discriminate.
  - intros ev (r & Hr & [d Hd]%is_dict_inv & ->)%saved_events_elem.
    exists r.1, d. rewrite Hd. split; [done|].
    rewrite <- (tasks_names o1 o2 o3 o4).
    eapply elem_of_sublist; [|by apply fmap_sublist].
    rewrite <- (task_results_names (store w)).
    apply list_elem_of_fmap. by exists r.
Qed.

End Laws.

(** *** The base optimiser *)

Lemma base_run (objective : objective_t search_outcome) timeout w :
  optimize_hyperparameters_base objective timeout w =
    let started log :=
      World (store w) (studies w ++ [best_found objective])
            (trace w ++ [EvLog INFO MsgStarting; EvCreateStudy "base";
                         EvSearch "base"] ++ log) in
    match outcome objective, best_found objective with
    | Crashed msg, _ => (Raise (OtherException msg), started [])
    | Finished, Some t =>
        (Ok (PyDict (params t)),
         started [EvLog INFO (MsgBestTrial (number t));
                  EvLog INFO (MsgBestValue (value t));
                  EvLog INFO (MsgBestParams (params t))])
    | Finished, None =>
        (Raise (ValueError "No trials are completed yet."), started [])
    | Interrupted, Some t =>
        (Ok (PyDict (params t)),
         started [EvLog INFO MsgInterrupted;
                  EvLog INFO (MsgBestTrial (number t));
                  EvLog INFO (MsgBestValue (value t));
                  EvLog INFO (MsgBestParams (params t))])
    | Interrupted, None =>
        (Raise (ValueError "No trials are completed yet."),
         started [EvLog INFO MsgInterrupted])
    end.
Proof.
  destruct objective as [o b], w as [s st tr].
  unfold optimize_hyperparameters_base, study_optimize, best_value,
    best_params, best_trial.
  run_monad. rewrite insert_app_r_alt, Nat.sub_diag by done. cbn.
  destruct o, b; cbn;
    repeat (rewrite list_lookup_middle by done; cbn);
    by rewrite <- ?app_assoc.
Qed.

(** X13. When the search of [optimize_hyperparameters_base] ends by itself
    and a trial has completed, the function returns the parameters of the
    best trial after logging, in this order, the start, the number of the
    best trial, its value and its parameters; it creates one study, runs
    one search and leaves the store alone. *)
Theorem base_returns_best_params
    (objective : objective_t search_outcome) timeout w t :
  outcome objective = Finished →
  best_found objective = Some t →
  optimize_hyperparameters_base objective timeout w =
    (Ok (PyDict (params t)),
     World (store w) (studies w ++ [Some t])
           (trace w ++ [EvLog INFO MsgStarting; EvCreateStudy "base";
                        EvSearch "base";
                        EvLog INFO (MsgBestTrial (number t));
                        EvLog INFO (MsgBestValue (value t));
                        EvLog INFO (MsgBestParams (params t))])).
Proof. intros Ho Hb. by rewrite base_run, Ho, Hb. Qed.

(** X14. Unlike [optimize_model], [optimize_hyperparameters_base] contains
    no failure of its search: an exception other than the interrupt goes
    to the caller as it is, with nothing logged after the start. *)
Theorem base_propagates_crash
    (objective : objective_t search_outcome) timeout w msg :
  outcome objective = Crashed msg →
  optimize_hyperparameters_base objective timeout w =
    (Raise (OtherException msg),
     World (store w) (studies w ++ [best_found objective])
           (trace w ++ [EvLog INFO MsgStarting; EvCreateStudy "base";
                        EvSearch "base"])).
Proof.
  intros Ho. rewrite base_run, Ho. by destruct (best_found objective).
Qed.

(** X15. However its search ends, [optimize_hyperparameters_base] never
    writes the store, creates exactly one study, and returns parameters
    only if a trial has completed: without one it raises. *)
Theorem base_needs_a_completed_trial
    (objective : objective_t search_outcome) timeout w :
  store (optimize_hyperparameters_base objective timeout w).2 = store w ∧
  length (studies (optimize_hyperparameters_base objective timeout w).2) =
    Datatypes.S (length (studies w)) ∧
  (∀ v, (optimize_hyperparameters_base objective timeout w).1 = Ok v →
     ∃ t, best_found objective = Some t ∧ v = PyDict (params t)).
Proof.
  rewrite base_run.
  destruct (outcome objective), (best_found objective); cbn;
    rewrite length_app; cbn;
    (split; [done|]); (split; [lia|]); intros v [= <-]; eauto.
Qed.

End Further.

(** *** The further properties at concrete inputs *)

Section FurtherConcrete.

Lemma second_pass_changes_nothing_witness :
  (∀ n, n ∈ model_names → n ∈ four_dicts.*1) ∧
  for_each merge_result ∅ four_dicts empty_world =
    (Ok four_dicts_map, four_dicts_world) ∧
  for_each ensure_loaded four_dicts_map model_names four_dicts_world =
    (Ok four_dicts_map, four_dicts_world).
Proof.
  split; [by intros n Hn|]. split; [vm_compute; reflexivity|].
  apply (second_pass_changes_nothing four_dicts empty_world);
    [by intros n Hn|vm_compute; reflexivity].
Defined.

Lemma unfinished_search_aborts_call_witness :
  shuffled ≡ₚ seq 0 4 ∧
  load "rf" (store empty_world) = PyNone ∧
  ∃ n, n ∈ model_names ∧
    (optimize_hyperparameters succeeding failing succeeding succeeding
       3600 shuffled empty_world).1 =
      Raise (ValueError ("Invalid parameters for " +:+ n +:+ ".")).
Proof.
  split; [compute_done|]. split; [reflexivity|].
  apply (unfinished_search_aborts_call succeeding failing succeeding
           succeeding 3600 shuffled empty_world "rf" failing).
  - compute_done.
  - unfold models_to_optimize. right. left.
  - reflexivity.
  - right. reflexivity.
Defined.

Lemma call_logs_only_search_errors_witness :
  shuffled ≡ₚ seq 0 4 ∧
  ∃ evs,
    trace (optimize_hyperparameters timing_out failing succeeding succeeding
             3600 shuffled empty_world).2 = trace empty_world ++ evs ∧
    ∀ l m, EvLog l m ∈ evs →
      l = ERROR ∧
      ∃ name objective,
        (name, objective) ∈
          models_to_optimize timing_out failing succeeding succeeding ∧
        load name (store empty_world) = PyNone ∧
        (m = MsgTimedOut name ∨ ∃ exc, m = MsgException name exc).
Proof.
  split; [compute_done|].
  apply call_logs_only_search_errors. compute_done.
Defined.

Lemma other_records_untouched_witness :
  shuffled ≡ₚ seq 0 4 ∧
  ("lstm" ∉ model_names) ∧
  load "lstm"
    (store (optimize_hyperparameters succeeding succeeding succeeding
              succeeding 3600 shuffled foreign_world).2)
    = load "lstm" (store foreign_world).
Proof.
  split; [compute_done|]. split; [compute_done|].
  apply other_records_untouched; compute_done.
Defined.

Lemma stored_dict_is_kept_witness :
  shuffled ≡ₚ seq 0 4 ∧
  load "rf" (store damaged_cached_world) = PyDict (params another_trial) ∧
  load "rf"
    (store (optimize_hyperparameters succeeding succeeding succeeding
              succeeding 3600 shuffled damaged_cached_world).2)
    = PyDict (params another_trial).
Proof.
  split; [compute_done|]. split; [reflexivity|].
  apply stored_dict_is_kept; [compute_done|reflexivity].
Defined.

Lemma damaged_record_blocks_call_witness :
  shuffled ≡ₚ seq 0 4 ∧
  "xgb" ∈ model_names ∧
  is_none (load "xgb" (store damaged_world)) = false ∧
  is_dict (load "xgb" (store damaged_world)) = false ∧
  load "xgb"
    (store (optimize_hyperparameters succeeding succeeding succeeding
              succeeding 3600 shuffled damaged_world).2)
    = load "xgb" (store damaged_world).
Proof.
  split; [compute_done|]. split; [compute_done|].
  split; [reflexivity|]. split; [reflexivity|].
  apply (damaged_record_blocks_call succeeding succeeding succeeding
           succeeding 3600 shuffled damaged_world "xgb");
    first [compute_done | reflexivity].
Defined.

Lemma abort_discards_later_results_witness :
  shuffled ≡ₚ seq 0 4 ∧
  is_dict (merged_value (store damaged_world) "rf" succeeding) = true ∧
  is_dict (merged_value (store damaged_world) "xgb" succeeding_too) = false ∧
  (optimize_hyperparameters succeeding_too succeeding succeeding succeeding
     3600 shuffled damaged_world).1 =
    Raise (ValueError ("Invalid parameters for " +:+ "xgb" +:+ ".")).
Proof.
  split; [compute_done|]. split; [reflexivity|]. split; [reflexivity|].
  apply (abort_discards_later_results succeeding_too succeeding succeeding
           succeeding 3600 shuffled damaged_world [] "xgb" succeeding_too
           [("rf", succeeding); ("stacking", succeeding);
            ("reg_stacking", succeeding)]).
  - compute_done.
  - reflexivity.
  - constructor.
  - reflexivity.
Defined.

Lemma returned_tuple_is_stored_witness :
  shuffled ≡ₚ seq 0 4 ∧
  (optimize_hyperparameters succeeding succeeding_too succeeding succeeding
     3600 shuffled empty_world).1 =
    Ok (PyDict (params a_trial), PyDict (params another_trial),
        PyDict (params a_trial), PyDict (params a_trial)) ∧
  load "rf"
    (store (optimize_hyperparameters succeeding succeeding_too succeeding
              succeeding 3600 shuffled empty_world).2)
    = PyDict (params another_trial).
Proof.
  split; [compute_done|]. split; [vm_compute; reflexivity|].
  apply (returned_tuple_is_stored succeeding succeeding_too succeeding
           succeeding 3600 shuffled empty_world
           (PyDict (params a_trial)) (PyDict (params another_trial))
           (PyDict (params a_trial)) (PyDict (params a_trial)));
    [compute_done|vm_compute; reflexivity].
Defined.

Lemma every_missing_model_is_searched_witness :
  shuffled ≡ₚ seq 0 4 ∧
  "stacking" ∈ model_names ∧
  load "stacking" (store damaged_cached_world) = PyNone ∧
  ∃ evs,
    trace (optimize_hyperparameters succeeding succeeding timing_out
             succeeding 3600 shuffled damaged_cached_world).2 =
      trace damaged_cached_world ++ evs ∧
    EvCreateStudy "stacking" ∈ evs ∧ EvSearch "stacking" ∈ evs.
Proof.
  split; [compute_done|]. split; [compute_done|]. split; [reflexivity|].
  apply every_missing_model_is_searched;
    first [compute_done | reflexivity].
Defined.

Lemma one_study_per_missing_model_witness :
  shuffled ≡ₚ seq 0 4 ∧
  length (studies (optimize_hyperparameters succeeding succeeding timing_out
                     succeeding 3600 shuffled damaged_cached_world).2) =
    (length (studies damaged_cached_world) +
     length (filter (λ n, is_none (load n (store damaged_cached_world))
                          = true) model_names))%nat.
Proof.
  split; [compute_done|].
  apply one_study_per_missing_model. compute_done.
Defined.

Lemma saves_follow_searches_witness :
  shuffled ≡ₚ seq 0 4 ∧
  ∃ evs1 evs2,
    trace (optimize_hyperparameters succeeding succeeding timing_out
             succeeding 3600 shuffled populated_world).2 =
      trace populated_world ++ evs1 ++ evs2 ∧
    (∀ n p, EvSave n p ∉ evs1) ∧
    (∀ ev, ev ∈ evs2 → ∃ n d, ev = EvSave n (PyDict d) ∧ n ∈ model_names).
Proof.
  split; [compute_done|].
  apply saves_follow_searches. compute_done.
Defined.

Lemma base_returns_best_params_witness :
  outcome finishing = Finished ∧
  best_found finishing = Some another_trial ∧
  (optimize_hyperparameters_base finishing 3600 empty_world).1 =
    Ok (PyDict (params another_trial)).
Proof.
  split; [reflexivity|]. split; [reflexivity|].
  by rewrite (base_returns_best_params finishing 3600 empty_world
                another_trial eq_refl eq_refl).
Defined.

Lemma base_propagates_crash_witness :
  outcome crashing = Crashed "loss is nan" ∧
  (optimize_hyperparameters_base crashing 3600 empty_world).1 =
    Raise (OtherException "loss is nan").
Proof.
  split; [reflexivity|].
  by rewrite (base_propagates_crash crashing 3600 empty_world
                "loss is nan" eq_refl).
Defined.

End FurtherConcrete.
